(** * STgaMe32 host boot sequence (main.c)

  A shallow embedding of the bare-metal bring-up sequence: clock tree
  configuration, SysTick heartbeat, serial link bring-up, reception of a
  guest image into SRAM and the one-way hand-off to it.

  Integers of the C source are modelled as [Z]; [uint32_t] and [unsigned]
  arithmetic is written with its wrap-around ([wrap32]).  Hardware that is
  only observed (status registers, the serial driver's return values) is an
  explicit environment record. *)

From Stdlib Require Import ZArith NArith List Bool Lia.
Import ListNotations.

Local Open Scope Z_scope.

(** ** 32-bit unsigned arithmetic *)

Module Word32.

Definition modulus : Z := 2 ^ 32.

Definition wrap32 (x : Z) : Z := x mod modulus.

Definition add32 (a b : Z) : Z := wrap32 (a + b).
Definition sub32 (a b : Z) : Z := wrap32 (a - b).
Definition mul32 (a b : Z) : Z := wrap32 (a * b).
(** unsigned division; the sources only divide by non-zero literals *)
Definition div32 (a b : Z) : Z := wrap32 (a / b).
Definition rem32 (a b : Z) : Z := wrap32 (a mod b).

(** C truth value of an integer expression *)
Definition truthy (x : Z) : bool := negb (x =? 0).

Lemma wrap32_range x : 0 <= wrap32 x < modulus.
Proof. unfold wrap32, modulus. apply Z.mod_pos_bound. lia. Qed.

Lemma wrap32_small x : 0 <= x < modulus -> wrap32 x = x.
Proof. intros H. unfold wrap32. apply Z.mod_small. exact H. Qed.

Lemma truthy_false x : truthy x = false <-> x = 0.
Proof.
  unfold truthy. rewrite negb_false_iff. apply Z.eqb_eq.
Qed.

End Word32.

Import Word32.

(** ** Memory layout (main.c, lines 32-42)

  The layout macros are object-like macros WITHOUT parentheses, so what an
  occurrence denotes depends on the expression it is spliced into.  The
  literal constants are given first, then every use site of the source with
  the C parse of its expansion. *)

Module Layout.

Definition SRAM_SIZE  : Z := 0x00002000.
Definition SRAM_VADDR : Z := 0x20000000.
Definition SRAM_PADDR : Z := 0x20000000.
Definition USER_OFFS  : Z := 0x00000400.

(** size in bytes of the pointee types that occur in the casts; GNU C gives
    [void] and function types size 1 for pointer arithmetic *)
Definition sizeof_uint32  : Z := 4.
Definition sizeof_void    : Z := 1.
Definition sizeof_fn      : Z := 1.

(** [p + n] on a pointer to objects of [size] bytes *)
Definition ptr_add (size p n : Z) : Z := wrap32 (p + size * n).

(** [USER_START] as an integer expression: [SRAM_VADDR + USER_OFFS],
    the base address of the loadable region *)
Definition USER_START : Z := add32 SRAM_VADDR USER_OFFS.

(** [USER_STACK] as the asm operand ["r"(SRAM_VADDR + SRAM_SIZE)] *)
Definition USER_STACK : Z := add32 SRAM_VADDR SRAM_SIZE.

(** [USER_MAX_PROG_SIZE] as a function argument: [SRAM_SIZE - USER_OFFS] *)
Definition USER_MAX_PROG_SIZE : Z := sub32 SRAM_SIZE USER_OFFS.

(** line 226: [(void* ) USER_START] is [(void* ) SRAM_VADDR + USER_OFFS],
    i.e. [((void* ) SRAM_VADDR) + USER_OFFS] *)
Definition recv_destination : Z := ptr_add sizeof_void SRAM_VADDR USER_OFFS.

(** line 248: [(uint32_t* ) USER_API_PTR_ADDR] is
    [(uint32_t* ) SRAM_VADDR + USER_OFFS]; the cast binds tighter than [+],
    so this is [((uint32_t* ) SRAM_VADDR) + USER_OFFS], element [USER_OFFS]
    of an array of 32-bit words that starts at [SRAM_VADDR] *)
Definition api_ptr_slot : Z := ptr_add sizeof_uint32 SRAM_VADDR USER_OFFS.

(** line 252: [(void ( * )(void)) USER_EXEC_START] is
    [(void ( * )(void)) SRAM_VADDR + USER_OFFS + 0x2U] *)
Definition USER_EXEC_OFFSET : Z := 0x2.
Definition exec_entry : Z :=
  ptr_add sizeof_fn (ptr_add sizeof_fn SRAM_VADDR USER_OFFS) USER_EXEC_OFFSET.

(** the distance of the entry point from the base of the loadable region *)
Definition entry_offset : Z := exec_entry - USER_START.

(** the bytes occupied by the machine word at address [a] *)
Definition in_word (a x : Z) : Prop := a <= x < a + sizeof_uint32.

Lemma USER_START_value : USER_START = 0x20000400.
Proof. reflexivity. Qed.

Lemma USER_STACK_value : USER_STACK = 0x20002000.
Proof. reflexivity. Qed.

Lemma USER_MAX_PROG_SIZE_value : USER_MAX_PROG_SIZE = 0x1C00.
Proof. reflexivity. Qed.

Lemma recv_destination_value : recv_destination = 0x20000400.
Proof. reflexivity. Qed.

Lemma api_ptr_slot_value : api_ptr_slot = 0x20001000.
Proof. reflexivity. Qed.

Lemma exec_entry_value : exec_entry = 0x20000402.
Proof. reflexivity. Qed.

End Layout.

Import Layout.

(** ** Heartbeat monitor: SysTick programming and the tick handler
    (main.c, lines 19-26, 98-147 and 171-191) *)

Module Heartbeat.

Definition CPU_FREQENCY : Z := 48000000.
Definition REF_FREQUENCY_DIV : Z := 8.
Definition SYSTICK_PERIOD_US : Z := 10.
Definition SYSTICK_FREQ : Z := div32 1000000 SYSTICK_PERIOD_US.

(** The SysTick calibration register as the source sees it.  inc/systick.h is
    not part of the sources, so the values its accessor macros evaluate to are
    taken as given: [NOREF] is the value of [SYSTICK_GET_NOREF()], [SKEW] the
    value of [SYSTICK_GET_SKEW()] (the register is read-only, every evaluation
    yields the same value), and [TENMS] is the calibration field, for which
    the source has no accessor call at all. *)
Record systick_calib : Set := {
  NOREF : Z;
  SKEW  : Z;
  TENMS : Z
}.

(** lines 100-107 *)
Definition ref_freq_avail (c : systick_calib) : bool := negb (truthy (NOREF c)).

Definition systick_src_freq (c : systick_calib) : Z :=
  if ref_freq_avail c then div32 CPU_FREQENCY REF_FREQUENCY_DIV
  else CPU_FREQENCY.

(** lines 109-130: the value of [reload_value] when line 133 is reached.
    Line 122 initialises [calib_value] from [SYSTICK_GET_SKEW()]. *)
Definition reload_value (period_us : Z) (c : systick_calib) : Z :=
  if negb (truthy (SKEW c)) then
    let calib_value := wrap32 (SKEW c) in
    if ref_freq_avail c then mul32 calib_value period_us
    else mul32 (mul32 calib_value period_us) REF_FREQUENCY_DIV
  else mul32 period_us (div32 (systick_src_freq c) 1000000).

(** The reload value as the specification words it: the calibration value of
    the platform times the period in the exact branch. *)
Definition spec_reload_value (period_us : Z) (c : systick_calib) : Z :=
  if negb (truthy (SKEW c)) then
    if ref_freq_avail c then TENMS c * period_us
    else TENMS c * period_us * REF_FREQUENCY_DIV
  else period_us * (systick_src_freq c / 1000000).

(** The handler's two function-local statics and the output pin it drives
    (PC8, the blue LED). *)
Record heartbeat : Set := {
  handler_ticks : Z;
  led_is_on     : bool;
  PC8           : bool
}.

Definition heartbeat_init : heartbeat :=
  {| handler_ticks := 0; led_is_on := false; PC8 := false |}.

(** lines 171-191; [GPIO_BSRR_SET_PIN] drives the pin high and
    [GPIO_BRR_RESET_PIN] drives it low *)
Definition systick_handler (h : heartbeat) : heartbeat :=
  let ticks := add32 (handler_ticks h) 1 in
  if rem32 ticks SYSTICK_FREQ =? 0 then
    if Bool.eqb (led_is_on h) false
    then {| handler_ticks := ticks; led_is_on := true;  PC8 := true |}
    else {| handler_ticks := ticks; led_is_on := false; PC8 := false |}
  else {| handler_ticks := ticks; led_is_on := led_is_on h; PC8 := PC8 h |}.

(** the heartbeat state after [n] invocations of the handler since reset *)
Definition after_ticks (n : N) : heartbeat :=
  N.iter n systick_handler heartbeat_init.

(** does the next invocation of the handler flip the indicator? *)
Definition toggles (h : heartbeat) : bool :=
  xorb (led_is_on (systick_handler h)) (led_is_on h).

Lemma SYSTICK_FREQ_value : SYSTICK_FREQ = 100000.
Proof. reflexivity. Qed.

Lemma after_ticks_succ n :
  after_ticks (N.succ n) = systick_handler (after_ticks n).
Proof. unfold after_ticks. apply N.iter_succ. Qed.

Lemma toggles_iff_multiple h :
  toggles h = (rem32 (add32 (handler_ticks h) 1) SYSTICK_FREQ =? 0).
Proof.
  unfold toggles, systick_handler.
  destruct (rem32 (add32 (handler_ticks h) 1) SYSTICK_FREQ =? 0);
    destruct (led_is_on h); reflexivity.
Qed.

Lemma toggle_sets_on_when_off h :
  toggles h = true -> led_is_on h = false ->
  led_is_on (systick_handler h) = true /\ PC8 (systick_handler h) = true.
Proof.
  intros Ht Hoff. rewrite toggles_iff_multiple in Ht.
  unfold systick_handler. rewrite Ht, Hoff. simpl. split; reflexivity.
Qed.

Lemma div_step_multiple n :
  0 <= n -> (n + 1) mod 100000 = 0 -> (n + 1) / 100000 = n / 100000 + 1.
Proof.
  intros Hn Hm.
  pose proof (Z.div_mod (n + 1) 100000 ltac:(lia)) as E1.
  pose proof (Z.div_mod n 100000 ltac:(lia)) as E2.
  pose proof (Z.mod_pos_bound n 100000 ltac:(lia)) as B2.
  lia.
Qed.

Lemma div_step_other n :
  0 <= n -> (n + 1) mod 100000 <> 0 -> (n + 1) / 100000 = n / 100000.
Proof.
  intros Hn Hm.
  pose proof (Z.div_mod (n + 1) 100000 ltac:(lia)) as E1.
  pose proof (Z.div_mod n 100000 ltac:(lia)) as E2.
  pose proof (Z.mod_pos_bound n 100000 ltac:(lia)) as B2.
  pose proof (Z.mod_pos_bound (n + 1) 100000 ltac:(lia)) as B1.
  lia.
Qed.

(** Before the 32-bit counter wraps, the counter is the number of
    invocations and the indicator is on after an odd number of completed
    intervals. *)
Lemma after_ticks_below_wrap n :
  Z.of_N n < modulus ->
  handler_ticks (after_ticks n) = Z.of_N n /\
  led_is_on (after_ticks n) = Z.odd (Z.of_N n / SYSTICK_FREQ) /\
  PC8 (after_ticks n) = led_is_on (after_ticks n).
Proof.
  induction n as [|n IH] using N.peano_ind; intros Hlt.
  - repeat split.
  - rewrite after_ticks_succ.
    destruct IH as (Ht & Hl & Hp); [lia|].
    assert (Hs : Z.of_N (N.succ n) = Z.of_N n + 1) by lia.
    rewrite Hs in *.
    assert (Hadd : add32 (handler_ticks (after_ticks n)) 1 = Z.of_N n + 1).
    { rewrite Ht. unfold add32. apply wrap32_small. lia. }
    assert (Hrem : rem32 (Z.of_N n + 1) SYSTICK_FREQ = (Z.of_N n + 1) mod 100000).
    { unfold rem32. rewrite SYSTICK_FREQ_value. apply wrap32_small.
      pose proof (Z.mod_pos_bound (Z.of_N n + 1) 100000 ltac:(lia)).
      unfold modulus. lia. }
    unfold systick_handler. rewrite Hadd, Hrem, SYSTICK_FREQ_value.
    rewrite SYSTICK_FREQ_value in Hl.
    destruct ((Z.of_N n + 1) mod 100000 =? 0) eqn:Hm.
    + apply Z.eqb_eq in Hm.
      rewrite (div_step_multiple (Z.of_N n) ltac:(lia) Hm).
      replace (Z.of_N n / 100000 + 1) with (Z.succ (Z.of_N n / 100000)) by lia.
      rewrite Z.odd_succ, <- Z.negb_odd, <- Hl.
      destruct (led_is_on (after_ticks n)); simpl; repeat split.
    + apply Z.eqb_neq in Hm.
      rewrite (div_step_other (Z.of_N n) ltac:(lia) Hm).
      simpl. repeat split; assumption.
Qed.

Lemma toggles_below_wrap n :
  Z.of_N n < modulus ->
  toggles (after_ticks n) = (rem32 (add32 (Z.of_N n) 1) SYSTICK_FREQ =? 0).
Proof.
  intros Hlt. rewrite toggles_iff_multiple.
  destruct (after_ticks_below_wrap n Hlt) as (Ht & _). rewrite Ht. reflexivity.
Qed.

End Heartbeat.

(** ** The main sequence (main.c, lines 58-92, 153-165, 197-280, 286-334) *)

Module Boot.

Import Heartbeat.

(** *** Register fields used by the sequence

    inc/modregs.h, inc/rcc.h and inc/systick.h are not part of the sources.
    [CHECK_BIT] is taken as the mask test its name and its two uses state
    (non-zero exactly when the bit is set in the register value), and the bit
    positions are those of the STM32F0 RCC and of the ARMv6-M SysTick. *)

Definition REG_RCC_CR_HSEON  : Z := 16.
Definition REG_RCC_CR_HSERDY : Z := 17.
Definition REG_RCC_CR_PLLON  : Z := 24.
Definition REG_RCC_CR_PLLRDY : Z := 25.
Definition REG_RCC_CFGR_SW_PLL  : Z := 2.
Definition REG_RCC_CFGR_SWS_PLL : Z := 2.

Definition CHECK_BIT (reg bit : Z) : Z := Z.land reg (Z.shiftl 1 bit).

Definition SYSTICK_CSR_ENABLE    : Z := 0.
Definition SYSTICK_CSR_TICKINT   : Z := 1.
Definition SYSTICK_CSR_CLKSOURCE : Z := 2.

(** *** Observable operations *)

Inductive event : Set :=
| RccCrSetBit (bit : Z)
| RccCrCheckBit (bit cr : Z)
| RccSetPrediv (div : Z)
| RccSetPllSrc
| RccSetPllMul (mul : Z)
| RccSetHpreNotDiv
| RccSetSw (src : Z)
| RccGetSws (sws : Z)
| RccSetPpreNotDiv
| GpioConfigure
| UartSetup
| UartTransmitEnable
| UartTransmitDisable
| UartReceiveEnable
| UartReceiveDisable
| UartRecvBuffer (dst len : Z)
| UartTrnsBuffer (src len : Z)
| IsRecvComplete (r : bool)
| IsTrnsComplete (r : bool)
| LoadWord (addr value : Z)
| StoreTable (dst : Z)
| SetStackPointer (top : Z)
| Call (entry : Z)
| IdleForever.

(** *** The environment: everything the sequence only observes *)

Record world : Type := {
  (** [REG_RCC_CR] as read by the k-th evaluation of the HSE loop condition *)
  rcc_cr_hse_wait : nat -> Z;
  (** [REG_RCC_CR] as read by the k-th evaluation of the PLL loop condition *)
  rcc_cr_pll_wait : nat -> Z;
  (** [GET_REG_RCC_CFGR_SWS()] at the k-th evaluation of the switch loop *)
  rcc_sws_wait : nat -> Z;
  calib : systick_calib;
  (** statuses returned by the serial driver (uart.c is not part of the
      sources) *)
  uart_setup_status : Z;
  uart_receive_enable_status : Z;
  uart_recv_buffer_status : Z;
  (** [is_recv_complete()] at its k-th call *)
  is_recv_complete : nat -> bool;
  (** the i-th byte delivered by the link *)
  rx_byte : Z -> Z;
  (** the object representation of [API_host] *)
  API_host : list Z;
  (** does the loaded routine ever return? *)
  guest_returns : bool
}.

(** *** Host state *)

Record host : Type := {
  trace : list event;
  SYSTICK_RVR : Z;
  SYSTICK_CVR : Z;
  SYSTICK_CSR : Z;
  mem : Z -> Z;
  sp : Z
}.

Definition with_events (s : host) (evs : list event) : host :=
  {| trace := trace s ++ evs;
     SYSTICK_RVR := SYSTICK_RVR s; SYSTICK_CVR := SYSTICK_CVR s;
     SYSTICK_CSR := SYSTICK_CSR s; mem := mem s; sp := sp s |}.

Definition with_mem (s : host) (m : Z -> Z) : host :=
  {| trace := trace s;
     SYSTICK_RVR := SYSTICK_RVR s; SYSTICK_CVR := SYSTICK_CVR s;
     SYSTICK_CSR := SYSTICK_CSR s; mem := m; sp := sp s |}.

Definition with_sp (s : host) (v : Z) : host :=
  {| trace := trace s;
     SYSTICK_RVR := SYSTICK_RVR s; SYSTICK_CVR := SYSTICK_CVR s;
     SYSTICK_CSR := SYSTICK_CSR s; mem := mem s; sp := v |}.

Definition with_systick (s : host) (rvr cvr csr : Z) : host :=
  {| trace := trace s;
     SYSTICK_RVR := rvr; SYSTICK_CVR := cvr; SYSTICK_CSR := csr;
     mem := mem s; sp := sp s |}.

(** *** Memory: a byte at every 32-bit address *)

Definition store_byte (m : Z -> Z) (a b : Z) : Z -> Z :=
  fun x => if x =? a then b else m x.

Fixpoint store_bytes (m : Z -> Z) (a : Z) (bs : list Z) : Z -> Z :=
  match bs with
  | [] => m
  | b :: bs' => store_bytes (store_byte m a b) (wrap32 (a + 1)) bs'
  end.

Fixpoint load_bytes (m : Z -> Z) (a : Z) (n : nat) : list Z :=
  match n with
  | O => []
  | S n' => m a :: load_bytes m (wrap32 (a + 1)) n'
  end.

(** little-endian 32-bit load *)
Definition load32 (m : Z -> Z) (a : Z) : Z :=
  match load_bytes m a 4 with
  | [b0; b1; b2; b3] =>
      wrap32 (b0 + Z.shiftl b1 8 + Z.shiftl b2 16 + Z.shiftl b3 24)
  | _ => 0
  end.

(** *** Control: a computation returns, runs out of poll budget inside a
    wait loop, or gives control away for good *)

Inductive result (A : Type) : Type :=
| Ret (a : A) (s : host)
| OutOfFuel (s : host)
| NoReturn (s : host).

Arguments Ret {A} a s.
Arguments OutOfFuel {A} s.
Arguments NoReturn {A} s.

Definition M (A : Type) : Type := host -> result A.

Definition ret {A} (a : A) : M A := fun s => Ret a s.

Definition bind {A B} (m : M A) (k : A -> M B) : M B :=
  fun s =>
    match m s with
    | Ret a s' => k a s'
    | OutOfFuel s' => OutOfFuel s'
    | NoReturn s' => NoReturn s'
    end.

Notation "x <- c ;; k" := (bind c (fun x => k))
  (at level 61, c at next level, right associativity).
Notation "c ;; k" := (bind c (fun _ => k))
  (at level 61, right associativity).

Definition emit (e : event) : M unit := fun s => Ret tt (with_events s [e]).

Definition final_state {A} (r : result A) : host :=
  match r with
  | Ret _ s => s
  | OutOfFuel s => s
  | NoReturn s => s
  end.

(** [while (cond) continue;] where the k-th evaluation of the condition is
    [cond k]; [fuel] bounds the number of evaluations *)
Fixpoint spin_while (cond : nat -> M bool) (fuel k : nat) : M unit :=
  match fuel with
  | O => fun s => OutOfFuel s
  | S fuel' =>
      c <- cond k ;;
      if c then spin_while cond fuel' (S k) else ret tt
  end.

(** *** Clock configurator (lines 58-92) *)

Definition hse_wait_cond (w : world) (k : nat) : M bool :=
  let cr := rcc_cr_hse_wait w k in
  emit (RccCrCheckBit REG_RCC_CR_HSERDY cr) ;;
  ret (truthy (CHECK_BIT cr REG_RCC_CR_HSERDY)).

Definition pll_wait_cond (w : world) (k : nat) : M bool :=
  let cr := rcc_cr_pll_wait w k in
  emit (RccCrCheckBit REG_RCC_CR_PLLRDY cr) ;;
  ret (truthy (CHECK_BIT cr REG_RCC_CR_PLLRDY)).

Definition sws_wait_cond (w : world) (k : nat) : M bool :=
  let sws := rcc_sws_wait w k in
  emit (RccGetSws sws) ;;
  ret (negb (sws =? REG_RCC_CFGR_SWS_PLL)).

Definition board_clocking_init (w : world) (fuel : nat) : M unit :=
  emit (RccCrSetBit REG_RCC_CR_HSEON) ;;
  spin_while (hse_wait_cond w) fuel 0 ;;
  emit (RccSetPrediv 2) ;;
  emit RccSetPllSrc ;;
  emit (RccSetPllMul 12) ;;
  emit (RccCrSetBit REG_RCC_CR_PLLON) ;;
  spin_while (pll_wait_cond w) fuel 0 ;;
  emit RccSetHpreNotDiv ;;
  emit (RccSetSw REG_RCC_CFGR_SW_PLL) ;;
  spin_while (sws_wait_cond w) fuel 0 ;;
  emit RccSetPpreNotDiv.

(** *** Output pins (lines 153-165) *)

Definition board_gpio_init : M unit := emit GpioConfigure.

(** *** SysTick programming (lines 132-146) *)

Definition systick_programmed (w : world) (period_us : Z) (s : host) : host :=
  let rvr := sub32 (reload_value period_us (calib w)) 1 in
  let csr_src :=
    if Bool.eqb (ref_freq_avail (calib w)) true
    then Z.clearbit (SYSTICK_CSR s) SYSTICK_CSR_CLKSOURCE
    else Z.setbit (SYSTICK_CSR s) SYSTICK_CSR_CLKSOURCE in
  let csr_exc := Z.setbit csr_src SYSTICK_CSR_TICKINT in
  with_systick s rvr 0 (Z.setbit csr_exc SYSTICK_CSR_ENABLE).

Definition systick_init (w : world) (period_us : Z) : M unit :=
  fun s => Ret tt (systick_programmed w period_us s).

(** *** Serial link bring-up (lines 197-218) *)

Definition uart_init (w : world) : M Z :=
  emit UartSetup ;;
  let err := uart_setup_status w in
  if err <? 0 then ret err else
  emit UartReceiveEnable ;;
  let err := uart_receive_enable_status w in
  if err <? 0 then ret err else
  ret 0.

(** *** Self test (lines 286-334): every operation is commented out *)

Definition run_tests : M Z := ret 0.

(** *** Code loader (lines 224-240) *)

(** Modelled from the spec: the serial driver (uart.c) is missing; once it
    reports completion the destination holds the delivered bytes, byte for
    byte. *)
Fixpoint deliver (w : world) (m : Z -> Z) (dst : Z) (i : Z) (n : nat) : Z -> Z :=
  match n with
  | O => m
  | S n' => deliver w (store_byte m (wrap32 (dst + i)) (rx_byte w i)) dst (i + 1) n'
  end.

Definition recv_wait_cond (w : world) (dst len : Z) (k : nat) : M bool :=
  let r := is_recv_complete w k in
  emit (IsRecvComplete r) ;;
  (if r
   then fun s => Ret tt (with_mem s (deliver w (mem s) dst 0 (Z.to_nat len)))
   else ret tt) ;;
  ret (Bool.eqb r false).

(** The body of [receive_code] with the length argument of
    [uart_recv_buffer] left open: line 226 passes [USER_MAX_PROG_SIZE], the
    variant kept in the comment of line 227 passes 4. *)
Definition receive_code_len (w : world) (len : Z) (fuel : nat) : M Z :=
  emit (UartRecvBuffer recv_destination len) ;;
  let err := uart_recv_buffer_status w in
  if err <? 0 then ret err else
  spin_while (recv_wait_cond w recv_destination len) fuel 0 ;;
  ret 0.

Definition receive_code (w : world) (fuel : nat) : M Z :=
  receive_code_len w USER_MAX_PROG_SIZE fuel.

(** *** Execution hand-off (lines 246-256) *)

Definition run_code {A : Type} (w : world) : M A :=
  fun s =>
    let api_guest := load32 (mem s) api_ptr_slot in
    let s1 := with_events s [LoadWord api_ptr_slot api_guest] in
    let s2 := with_events (with_mem s1 (store_bytes (mem s1) api_guest (API_host w)))
                          [StoreTable api_guest] in
    let s3 := with_events (with_sp s2 USER_STACK) [SetStackPointer USER_STACK] in
    let s4 := with_events s3 [Call exec_entry] in
    NoReturn (if guest_returns w then with_events s4 [IdleForever] else s4).

(** *** main (lines 262-280) *)

Definition main (w : world) (fuel : nat) : M Z :=
  board_clocking_init w fuel ;;
  board_gpio_init ;;
  systick_init w SYSTICK_PERIOD_US ;;
  err <- uart_init w ;;
  if err <? 0 then ret err else
  err <- run_tests ;;
  if err <? 0 then ret err else
  err <- receive_code w fuel ;;
  if err <? 0 then ret err else
  run_code w.

(** *** Which operations belong to the serial link, and which of them the
    boot sequence is expected to use *)

Definition is_link_op (e : event) : bool :=
  match e with
  | UartSetup | UartTransmitEnable | UartTransmitDisable
  | UartReceiveEnable | UartReceiveDisable
  | UartRecvBuffer _ _ | UartTrnsBuffer _ _
  | IsRecvComplete _ | IsTrnsComplete _ => true
  | _ => false
  end.

Definition is_recv_initiation (e : event) : bool :=
  match e with
  | UartRecvBuffer _ _ => true
  | _ => false
  end.

(** transmitter enable/disable, send initiation, send-completion polling and
    receiver disable are the link operations the sequence must not perform *)
Definition boot_link_discipline (e : event) : bool :=
  match e with
  | UartTransmitEnable | UartTransmitDisable | UartReceiveDisable
  | UartTrnsBuffer _ _ | IsTrnsComplete _ => false
  | _ => true
  end.

Definition recv_initiations (evs : list event) : nat :=
  length (filter is_recv_initiation evs).

Definition is_recv_poll (e : event) : bool :=
  match e with
  | IsRecvComplete _ => true
  | _ => false
  end.

(** the polls of a completed wait: [n] times not yet, then complete *)
Definition recv_polls (n : nat) : list event :=
  map IsRecvComplete (repeat false n ++ [true]).

(** the host state once the clock, the pins and the tick source are set up,
    given the state [s1] the clock configurator returned *)
Definition brought_up (w : world) (s1 : host) : host :=
  systick_programmed w SYSTICK_PERIOD_US (with_events s1 [GpioConfigure]).

(** the clock, pin and tick stages are expected to leave the link alone *)
Definition no_link_op (e : event) : bool := negb (is_link_op e).

(** [m] only appends to the trace; every operation it appends is in the
    alphabet [P], and at most [n] of them are receive initiations *)
Definition disciplined {A} (P : event -> bool) (n : nat) (m : M A) : Prop :=
  forall s, exists evs,
    trace (final_state (m s)) = trace s ++ evs /\
    forallb P evs = true /\
    (recv_initiations evs <= n)%nat.

(** [m] leaves the component [f] of the host state as it found it *)
Definition keeps {A X} (f : host -> X) (m : M A) : Prop :=
  forall s, f (final_state (m s)) = f s.

(** *** Sample environments *)

Definition reset_host : host :=
  {| trace := []; SYSTICK_RVR := 0; SYSTICK_CVR := 0; SYSTICK_CSR := 0;
     mem := fun _ => 0; sp := 0x20002000 |}.

(** a board whose clocks come up after a few polls and whose driver answers
    with the given statuses; the guest image asks for the table at
    0x20001800 *)
Definition bench_world (setup enable recv : Z) : world :=
  {| rcc_cr_hse_wait := fun _ => 0x00010083;
     rcc_cr_pll_wait := fun _ => 0x01010083;
     rcc_sws_wait := fun k => if (k <? 3)%nat then 0 else 2;
     calib := {| NOREF := 0; SKEW := 1; TENMS := 6000 |};
     uart_setup_status := setup;
     uart_receive_enable_status := enable;
     uart_recv_buffer_status := recv;
     is_recv_complete := fun k => (2 <=? k)%nat;
     rx_byte := fun i => if i =? 0xC01 then 0x18
                         else if i =? 0xC02 then 0x00
                         else if i =? 0xC03 then 0x20
                         else 0;
     API_host := [0x11; 0x22; 0x33; 0x44; 0x55; 0x66; 0x77; 0x88];
     guest_returns := false |}.

(** the state in which the clock configurator leaves the bench board *)
Definition bench_clock_done : host :=
  final_state (board_clocking_init (bench_world 0 0 0) 10 reset_host).

(** a board whose oscillator already reports ready when the wait starts *)
Definition ready_world : world :=
  {| rcc_cr_hse_wait := fun _ => 0x00030083;
     rcc_cr_pll_wait := fun _ => 0x03030083;
     rcc_sws_wait := fun _ => 2;
     calib := {| NOREF := 0; SKEW := 1; TENMS := 6000 |};
     uart_setup_status := 0;
     uart_receive_enable_status := 0;
     uart_recv_buffer_status := 0;
     is_recv_complete := fun _ => true;
     rx_byte := fun _ => 0;
     API_host := [];
     guest_returns := false |}.

(** a guest image whose first word (at the base of the loadable region,
    0x20000400) holds 0x20000800, while the word at 0x20001000 holds
    0x20001800 *)
Definition split_image (a : Z) : Z :=
  if a =? 0x20000401 then 0x08
  else if a =? 0x20000403 then 0x20
  else if a =? 0x20001001 then 0x18
  else if a =? 0x20001003 then 0x20
  else 0.

(** *** Basic facts about the control monad *)

Lemma bind_Ret {A B} (m : M A) (k : A -> M B) s a s' :
  m s = Ret a s' -> bind m k s = k a s'.
Proof. intros H. unfold bind. rewrite H. reflexivity. Qed.

Lemma with_events_nil s : trace (with_events s []) = trace s.
Proof. simpl. apply app_nil_r. Qed.

Lemma recv_initiations_app a b :
  recv_initiations (a ++ b) = (recv_initiations a + recv_initiations b)%nat.
Proof. unfold recv_initiations. rewrite filter_app, length_app. reflexivity. Qed.

Section Discipline.

Variable P : event -> bool.

Lemma disciplined_ret {A} (a : A) : disciplined P 0 (ret a).
Proof.
  intros s. exists []. simpl. rewrite app_nil_r. repeat split.
  apply Nat.le_refl.
Qed.

Lemma disciplined_emit e :
  P e = true ->
  disciplined P (if is_recv_initiation e then 1 else 0) (emit e).
Proof.
  intros He s. exists [e]. simpl. rewrite He. repeat split.
  unfold recv_initiations. simpl. destruct (is_recv_initiation e); simpl; lia.
Qed.

Lemma disciplined_bind {A B} n1 n2 (m : M A) (k : A -> M B) :
  disciplined P n1 m -> (forall a, disciplined P n2 (k a)) ->
  disciplined P (n1 + n2) (bind m k).
Proof.
  intros Hm Hk s. destruct (Hm s) as (e1 & T1 & F1 & C1).
  unfold bind. destruct (m s) as [a s1|s1|s1]; simpl in T1.
  - destruct (Hk a s1) as (e2 & T2 & F2 & C2).
    exists (e1 ++ e2). rewrite T2, T1, app_assoc, forallb_app, F1, F2.
    rewrite recv_initiations_app. repeat split. lia.
  - exists e1. simpl. repeat split; [assumption..|lia].
  - exists e1. simpl. repeat split; [assumption..|lia].
Qed.

Lemma disciplined_weaken {A} n1 n2 (m : M A) :
  (n1 <= n2)%nat -> disciplined P n1 m -> disciplined P n2 m.
Proof.
  intros Hle Hm s. destruct (Hm s) as (e & T & F & C).
  exists e. repeat split; [assumption..|lia].
Qed.

Lemma disciplined_if {A} n1 n2 (c : bool) (m1 m2 : M A) :
  disciplined P n1 m1 -> disciplined P n2 m2 ->
  disciplined P (n1 + n2) (if c then m1 else m2).
Proof.
  intros H1 H2. destruct c.
  - apply (disciplined_weaken n1); [lia|exact H1].
  - apply (disciplined_weaken n2); [lia|exact H2].
Qed.

Lemma disciplined_spin cond fuel :
  (forall k, disciplined P 0 (cond k)) ->
  forall k, disciplined P 0 (spin_while cond fuel k).
Proof.
  intros Hc. induction fuel as [|fuel IH]; intros k.
  - intros s. exists []. simpl. rewrite app_nil_r. repeat split.
    apply Nat.le_refl.
  - simpl. apply (disciplined_bind 0 0); [apply Hc|].
    intros [|]; [apply IH|apply disciplined_ret].
Qed.

Lemma disciplined_state {A} (f : host -> host) (a : A) :
  (forall s, trace (f s) = trace s) ->
  disciplined P 0 (fun s => Ret a (f s)).
Proof.
  intros Hf s. exists []. simpl. rewrite Hf, app_nil_r. repeat split.
  apply Nat.le_refl.
Qed.

End Discipline.

Section Frame.

Context {X : Type} (f : host -> X).

Lemma keeps_ret {A} (a : A) : keeps f (ret a).
Proof. intros s. reflexivity. Qed.

Lemma keeps_emit e :
  (forall s evs, f (with_events s evs) = f s) -> keeps f (emit e).
Proof. intros f_events s. apply f_events. Qed.

Lemma keeps_bind {A B} (m : M A) (k : A -> M B) :
  keeps f m -> (forall a, keeps f (k a)) -> keeps f (bind m k).
Proof.
  intros Hm Hk s. specialize (Hm s). unfold bind.
  destruct (m s) as [a s1|s1|s1]; simpl in *; [|assumption..].
  rewrite Hk. exact Hm.
Qed.

Lemma keeps_spin cond fuel :
  (forall k, keeps f (cond k)) -> forall k, keeps f (spin_while cond fuel k).
Proof.
  intros Hc. induction fuel as [|fuel IH]; intros k.
  - intros s. reflexivity.
  - simpl. apply keeps_bind; [apply Hc|].
    intros [|]; [apply IH|apply keeps_ret].
Qed.

End Frame.

(** *** Wait loops *)

(** A wait loop that returns does so at the first evaluation at which its
    condition is false; the evaluations before it saw the condition true. *)
Lemma spin_while_exit cond fuel k s s' :
  spin_while cond fuel k s = Ret tt s' ->
  exists n s1 s2,
    cond (k + n)%nat s1 = Ret false s2 /\ s' = s2 /\
    (n < fuel)%nat.
Proof.
  revert k s. induction fuel as [|fuel IH]; intros k s H; [discriminate|].
  simpl in H. unfold bind in H.
  destruct (cond k s) as [c s1|s1|s1] eqn:Hc; try discriminate.
  destruct c.
  - destruct (IH _ _ H) as (n & t1 & t2 & Hn & Hs & Hf).
    exists (S n), t1, t2. rewrite <- plus_n_Sm. repeat split; [exact Hn|exact Hs|lia].
  - unfold ret in H. inversion H; subst.
    exists 0%nat, s, s'. rewrite Nat.add_0_r. repeat split; [exact Hc|lia].
Qed.

(** A wait loop never hands control away. *)
Lemma spin_while_not_NoReturn cond fuel :
  (forall k s s', cond k s <> NoReturn s') ->
  forall k s s', spin_while cond fuel k s <> NoReturn s'.
Proof.
  intros Hc. induction fuel as [|fuel IH]; intros k s s' H; [discriminate|].
  simpl in H. unfold bind in H.
  destruct (cond k s) as [c s1|s1|s1] eqn:E; try discriminate.
  - destruct c; [exact (IH _ _ _ H)|discriminate].
  - exact (Hc _ _ _ E).
Qed.

(** *** The clock configurator's waits *)

Lemma CHECK_BIT_zero reg bit :
  0 <= bit -> CHECK_BIT reg bit = 0 -> Z.testbit reg bit = false.
Proof.
  intros Hb H. unfold CHECK_BIT in H.
  assert (T : Z.testbit (Z.land reg (Z.shiftl 1 bit)) bit = false)
    by (rewrite H; apply Z.bits_0).
  rewrite Z.land_spec, Z.shiftl_spec, Z.sub_diag in T by exact Hb.
  simpl in T. rewrite andb_true_r in T. exact T.
Qed.

Lemma CHECK_BIT_nonzero reg bit :
  0 <= bit -> Z.testbit reg bit = true -> CHECK_BIT reg bit <> 0.
Proof.
  intros Hb Ht H. rewrite (CHECK_BIT_zero reg bit Hb H) in Ht. discriminate.
Qed.

(** The HSE wait, as written, can only be left by an evaluation that read
    the ready flag CLEAR. *)
Lemma hse_wait_exit w fuel k s s' :
  spin_while (hse_wait_cond w) fuel k s = Ret tt s' ->
  exists n, Z.testbit (rcc_cr_hse_wait w (k + n)) REG_RCC_CR_HSERDY = false.
Proof.
  intros H. destruct (spin_while_exit _ _ _ _ _ H) as (n & s1 & s2 & Hc & _ & _).
  exists n. unfold hse_wait_cond, bind, emit, ret in Hc. injection Hc as Hv Hs.
  apply CHECK_BIT_zero; [unfold REG_RCC_CR_HSERDY; lia|].
  apply truthy_false. exact Hv.
Qed.

Lemma pll_wait_exit w fuel k s s' :
  spin_while (pll_wait_cond w) fuel k s = Ret tt s' ->
  exists n, Z.testbit (rcc_cr_pll_wait w (k + n)) REG_RCC_CR_PLLRDY = false.
Proof.
  intros H. destruct (spin_while_exit _ _ _ _ _ H) as (n & s1 & s2 & Hc & _ & _).
  exists n. unfold pll_wait_cond, bind, emit, ret in Hc. injection Hc as Hv Hs.
  apply CHECK_BIT_zero; [unfold REG_RCC_CR_PLLRDY; lia|].
  apply truthy_false. exact Hv.
Qed.

(** The switch wait is left only when the status field reads PLL. *)
Lemma sws_wait_exit w fuel k s s' :
  spin_while (sws_wait_cond w) fuel k s = Ret tt s' ->
  exists n, rcc_sws_wait w (k + n) = REG_RCC_CFGR_SWS_PLL.
Proof.
  intros H. destruct (spin_while_exit _ _ _ _ _ H) as (n & s1 & s2 & Hc & _ & _).
  exists n. unfold sws_wait_cond, bind, emit, ret in Hc. injection Hc as Hv Hs.
  apply negb_false_iff in Hv. apply Z.eqb_eq. exact Hv.
Qed.

(** With the oscillator ready at every poll the HSE wait spins for as long
    as it is given. *)
Lemma hse_wait_spins_while_ready w :
  (forall k, Z.testbit (rcc_cr_hse_wait w k) REG_RCC_CR_HSERDY = true) ->
  forall fuel k s, exists s', spin_while (hse_wait_cond w) fuel k s = OutOfFuel s'.
Proof.
  intros Hr. induction fuel as [|fuel IH]; intros k s.
  - exists s. reflexivity.
  - simpl. unfold bind at 1. unfold hse_wait_cond at 1, bind, emit, ret.
    assert (T : truthy (CHECK_BIT (rcc_cr_hse_wait w k) REG_RCC_CR_HSERDY) = true).
    { unfold truthy. apply negb_true_iff, Z.eqb_neq.
      apply CHECK_BIT_nonzero; [unfold REG_RCC_CR_HSERDY; lia|apply Hr]. }
    rewrite T. apply IH.
Qed.

Ltac keeps_steps :=
  repeat first
    [ apply keeps_ret
    | apply keeps_emit; intros; reflexivity
    | apply keeps_bind; [|intros]
    | apply keeps_spin; intros ].

Lemma clock_init_no_link_op w fuel :
  disciplined no_link_op 0 (board_clocking_init w fuel).
Proof.
  unfold board_clocking_init, hse_wait_cond, pll_wait_cond, sws_wait_cond.
  repeat first
    [ apply (disciplined_bind no_link_op 0 0); [|intros]
    | apply (disciplined_emit no_link_op); reflexivity
    | apply disciplined_spin; intros
    | apply disciplined_ret ].
Qed.

Lemma clock_init_keeps_mem w fuel : keeps mem (board_clocking_init w fuel).
Proof.
  unfold board_clocking_init, hse_wait_cond, pll_wait_cond, sws_wait_cond.
  keeps_steps.
Qed.

(** *** Serial link bring-up and the code loader *)

Lemma with_events_events s a b :
  with_events (with_events s a) b = with_events s (a ++ b).
Proof. unfold with_events. simpl. rewrite <- app_assoc. reflexivity. Qed.

Lemma uart_init_eval w s :
  uart_init w s =
    if uart_setup_status w <? 0
    then Ret (uart_setup_status w) (with_events s [UartSetup])
    else if uart_receive_enable_status w <? 0
    then Ret (uart_receive_enable_status w)
             (with_events s [UartSetup; UartReceiveEnable])
    else Ret 0 (with_events s [UartSetup; UartReceiveEnable]).
Proof.
  unfold uart_init, bind, emit, ret.
  destruct (uart_setup_status w <? 0); [reflexivity|].
  destruct (uart_receive_enable_status w <? 0);
    rewrite with_events_events; reflexivity.
Qed.

Lemma run_tests_eval s : run_tests s = Ret 0 s.
Proof. reflexivity. Qed.

Lemma receive_code_len_rejected w len fuel s :
  uart_recv_buffer_status w < 0 ->
  receive_code_len w len fuel s =
    Ret (uart_recv_buffer_status w)
        (with_events s [UartRecvBuffer recv_destination len]).
Proof.
  intros H. apply Z.ltb_lt in H.
  unfold receive_code_len, bind, emit, ret. rewrite H. reflexivity.
Qed.

Lemma recv_wait_cond_eval w dst len k s :
  recv_wait_cond w dst len k s =
    if is_recv_complete w k
    then Ret false
           (with_mem (with_events s [IsRecvComplete true])
                     (deliver w (mem s) dst 0 (Z.to_nat len)))
    else Ret true (with_events s [IsRecvComplete false]).
Proof.
  unfold recv_wait_cond, bind, emit, ret.
  destruct (is_recv_complete w k); reflexivity.
Qed.

Lemma recv_wait_exit w dst len fuel k s s' :
  spin_while (recv_wait_cond w dst len) fuel k s = Ret tt s' ->
  exists n,
    (n < fuel)%nat /\
    is_recv_complete w (k + n) = true /\
    (forall j, (j < n)%nat -> is_recv_complete w (k + j) = false) /\
    trace s' = trace s ++ recv_polls n /\
    mem s' = deliver w (mem s) dst 0 (Z.to_nat len).
Proof.
  revert k s. induction fuel as [|fuel IH]; intros k s H; [discriminate|].
  simpl in H. unfold bind in H. rewrite recv_wait_cond_eval in H.
  destruct (is_recv_complete w k) eqn:Hk.
  - injection H as H. subst s'. exists 0%nat.
    rewrite Nat.add_0_r. repeat split; [lia|exact Hk|intros j Hj; lia].
  - destruct (IH _ _ H) as (n & Hf & Hn & Hb & Ht & Hm).
    exists (S n). rewrite <- plus_n_Sm. repeat split.
    + lia.
    + exact Hn.
    + intros [|j] Hj; [rewrite Nat.add_0_r; exact Hk|].
      rewrite <- plus_n_Sm. apply Hb. lia.
    + rewrite Ht. simpl. rewrite <- app_assoc. reflexivity.
    + exact Hm.
Qed.

Lemma recv_wait_total w dst len n :
  forall fuel k s,
    (n < fuel)%nat ->
    is_recv_complete w (k + n) = true ->
    (forall j, (j < n)%nat -> is_recv_complete w (k + j) = false) ->
    exists s', spin_while (recv_wait_cond w dst len) fuel k s = Ret tt s'.
Proof.
  induction n as [|n IH]; intros fuel k s Hf Hn Hb;
    (destruct fuel as [|fuel]; [lia|]);
    simpl; unfold bind; rewrite recv_wait_cond_eval.
  - rewrite Nat.add_0_r in Hn. rewrite Hn. eexists. reflexivity.
  - pose proof (Hb 0%nat ltac:(lia)) as H0. rewrite Nat.add_0_r in H0.
    rewrite H0. apply IH.
    + lia.
    + rewrite <- plus_n_Sm in Hn. exact Hn.
    + intros j Hj. specialize (Hb (S j) ltac:(lia)).
      rewrite <- plus_n_Sm in Hb. exact Hb.
Qed.

(** *** Hand-off *)

Lemma run_code_NoReturn {A} w s :
  exists s', @run_code A w s = NoReturn s'.
Proof. unfold run_code. eexists. reflexivity. Qed.


Lemma wrap32_succ_add a i : wrap32 (wrap32 (a + 1) + i) = wrap32 (a + (1 + i)).
Proof.
  unfold wrap32. rewrite Z.add_mod_idemp_l by (unfold modulus; lia).
  f_equal. lia.
Qed.

Lemma store_bytes_other bs : forall m a x,
  0 <= a < modulus ->
  (forall i, 0 <= i < Z.of_nat (length bs) -> wrap32 (a + i) <> x) ->
  store_bytes m a bs x = m x.
Proof.
  induction bs as [|b bs IH]; intros m a x Ha H; [reflexivity|].
  simpl. rewrite IH.
  - unfold store_byte. destruct (x =? a) eqn:E; [|reflexivity].
    apply Z.eqb_eq in E. subst x. exfalso.
    apply (H 0); [simpl length; lia|].
    rewrite Z.add_0_r. apply wrap32_small. exact Ha.
  - apply wrap32_range.
  - intros i Hi. rewrite wrap32_succ_add. apply H. simpl length. lia.
Qed.


(** *** main *)

Lemma main_after_clock w fuel s0 s1 :
  board_clocking_init w fuel s0 = Ret tt s1 ->
  main w fuel s0 =
    (err <- uart_init w ;;
     if err <? 0 then ret err else
     err <- run_tests ;;
     if err <? 0 then ret err else
     err <- receive_code w fuel ;;
     if err <? 0 then ret err else
     run_code w) (brought_up w s1).
Proof.
  intros H. unfold main.
  rewrite (bind_Ret _ _ _ _ _ H). reflexivity.
Qed.

Lemma main_setup_failure w fuel s0 s1 :
  board_clocking_init w fuel s0 = Ret tt s1 ->
  uart_setup_status w < 0 ->
  main w fuel s0 =
    Ret (uart_setup_status w) (with_events (brought_up w s1) [UartSetup]).
Proof.
  intros Hclk H. rewrite (main_after_clock _ _ _ _ Hclk).
  apply Z.ltb_lt in H.
  unfold bind at 1. rewrite uart_init_eval, H. cbv beta iota.
  rewrite H. reflexivity.
Qed.

Lemma brought_up_tick_running w s1 :
  Z.testbit (SYSTICK_CSR (brought_up w s1)) SYSTICK_CSR_ENABLE = true /\
  Z.testbit (SYSTICK_CSR (brought_up w s1)) SYSTICK_CSR_TICKINT = true.
Proof.
  unfold brought_up, systick_programmed, SYSTICK_CSR_ENABLE, SYSTICK_CSR_TICKINT.
  simpl SYSTICK_CSR. split.
  - apply Z.setbit_eq. lia.
  - rewrite Z.setbit_neq by lia. apply Z.setbit_eq. lia.
Qed.

Ltac discipline_steps P :=
  cbv zeta;
  repeat first
    [ apply (disciplined_ret P)
    | eapply (disciplined_emit P); reflexivity
    | eapply (disciplined_spin P); intros
    | eapply (disciplined_state P); intros; reflexivity
    | lazymatch goal with
      | |- disciplined _ ?n (if _ then _ else _) =>
          tryif is_evar n then eapply (disciplined_if P)
          else apply (disciplined_if P 0 0)
      end
    | lazymatch goal with
      | |- disciplined _ ?n _ =>
          tryif is_evar n then eapply (disciplined_bind P)
          else apply (disciplined_bind P 0 0)
      end; [|intros] ].

Lemma run_code_disciplined {A} w :
  disciplined boot_link_discipline 0 (@run_code A w).
Proof.
  intros s. unfold run_code.
  destruct (guest_returns w); simpl;
    repeat rewrite <- app_assoc; eexists; (split; [reflexivity|]);
    split; [reflexivity|unfold recv_initiations; simpl; lia
           |reflexivity|unfold recv_initiations; simpl; lia].
Qed.

Lemma receive_code_disciplined w fuel :
  disciplined boot_link_discipline 1 (receive_code w fuel).
Proof.
  eapply disciplined_weaken.
  2: { unfold receive_code, receive_code_len, recv_wait_cond.
       discipline_steps boot_link_discipline. }
  simpl. lia.
Qed.

Lemma main_disciplined w fuel :
  disciplined boot_link_discipline 1 (main w fuel).
Proof.
  eapply disciplined_weaken.
  2: { unfold main.
       eapply (disciplined_bind boot_link_discipline).
       { unfold board_clocking_init, hse_wait_cond, pll_wait_cond, sws_wait_cond.
         discipline_steps boot_link_discipline. }
       intros _. eapply (disciplined_bind boot_link_discipline).
       { unfold board_gpio_init. discipline_steps boot_link_discipline. }
       intros _. eapply (disciplined_bind boot_link_discipline).
       { unfold systick_init. discipline_steps boot_link_discipline. }
       intros _. eapply (disciplined_bind boot_link_discipline).
       { unfold uart_init. discipline_steps boot_link_discipline. }
       intros e1. eapply (disciplined_if boot_link_discipline).
       { apply disciplined_ret. }
       eapply (disciplined_bind boot_link_discipline).
       { apply disciplined_ret. }
       intros e2. eapply (disciplined_if boot_link_discipline).
       { apply disciplined_ret. }
       eapply (disciplined_bind boot_link_discipline).
       { apply receive_code_disciplined. }
       intros e3. eapply (disciplined_if boot_link_discipline).
       { apply disciplined_ret. }
       apply run_code_disciplined. }
  simpl. lia.
Qed.

End Boot.

Import Heartbeat Boot.

(** * The claims *)

(** ** Clock configurator *)

(** C1 (the code departs from the claim).  On a board whose oscillator and
    PLL are not yet ready at the first poll, both readiness waits of
    [board_clocking_init] are left at that very poll and the next
    configuration steps run: the loops of lines 62 and 78 spin WHILE the
    ready flag is set.  On a board whose oscillator is ready from the start
    the first wait is never left. *)
Theorem clock_waits_left_before_ready :
  let w := bench_world 0 0 0 in
  Z.testbit (rcc_cr_hse_wait w 0) REG_RCC_CR_HSERDY = false /\
  Z.testbit (rcc_cr_pll_wait w 0) REG_RCC_CR_PLLRDY = false /\
  (exists s',
     board_clocking_init w 10 reset_host = Ret tt s' /\
     trace s' =
       [ RccCrSetBit REG_RCC_CR_HSEON;
         RccCrCheckBit REG_RCC_CR_HSERDY 0x00010083;
         RccSetPrediv 2; RccSetPllSrc; RccSetPllMul 12;
         RccCrSetBit REG_RCC_CR_PLLON;
         RccCrCheckBit REG_RCC_CR_PLLRDY 0x01010083;
         RccSetHpreNotDiv; RccSetSw REG_RCC_CFGR_SW_PLL;
         RccGetSws 0; RccGetSws 0; RccGetSws 0;
         RccGetSws REG_RCC_CFGR_SWS_PLL;
         RccSetPpreNotDiv ]) /\
  (forall fuel, exists s',
     board_clocking_init ready_world fuel reset_host = OutOfFuel s').
Proof.
  cbv zeta. split; [reflexivity|]. split; [reflexivity|]. split.
  - eexists. split; reflexivity.
  - intros fuel. unfold board_clocking_init.
    destruct (hse_wait_spins_while_ready ready_world
                ltac:(intros k; reflexivity) fuel 0%nat
                (with_events reset_host [RccCrSetBit REG_RCC_CR_HSEON]))
      as (s' & Hs).
    exists s'. unfold bind at 1. unfold emit at 1.
    unfold bind at 1. rewrite Hs. reflexivity.
Qed.

(** ** Heartbeat monitor *)

Lemma reload_value_exact_branch P c :
  SKEW c = 0 -> reload_value P c = 0.
Proof.
  intros H. unfold reload_value. rewrite H. simpl.
  destruct (ref_freq_avail c); reflexivity.
Qed.

Lemma reload_value_inexact_branch P c :
  SKEW c <> 0 -> reload_value P c = wrap32 (spec_reload_value P c).
Proof.
  intros H. unfold reload_value, spec_reload_value.
  apply Z.eqb_neq in H. unfold truthy. rewrite H. simpl.
  unfold systick_src_freq. destruct (ref_freq_avail c); reflexivity.
Qed.

(** C2 (the code departs from the claim).  With an exact calibration value
    (SKEW clear) of 6000 and the reference clock available, a period of 10
    microseconds gives the reload value 0 where the formula of the
    specification gives 6000 * 10: line 122 takes [calib_value] from
    [SYSTICK_GET_SKEW()], which is 0 on this branch, so the exact branch
    yields 0 for every period and every calibration value. *)
Theorem exact_reload_ignores_calibration_value :
  let c := {| NOREF := 0; SKEW := 0; TENMS := 6000 |} in
  reload_value 10 c = 0 /\
  spec_reload_value 10 c = 60000 /\
  (forall P tenms noref,
     reload_value P {| NOREF := noref; SKEW := 0; TENMS := tenms |} = 0).
Proof.
  cbv zeta. split; [reflexivity|]. split; [reflexivity|].
  intros P tenms noref. apply reload_value_exact_branch. reflexivity.
Qed.

(** ** Memory layout and hand-off *)

(** The claim of C3 as stated fails: the entry offset is smaller than the
    machine word and the entry point is one of the bytes of the word at the
    base of the loadable region. *)
Lemma entry_point_inside_first_word :
  (sizeof_uint32 <=? entry_offset) = false /\ in_word USER_START exec_entry.
Proof. split; [reflexivity|]. unfold in_word. split; vm_compute; congruence. Qed.

(** C3 (amended).  Execution begins at the fixed offset 2 from the base of
    the loadable region, at 0x20000402; the offset is smaller than the
    4-byte machine word, so the entry point lies in the upper half of the
    region's first word and does not skip it. *)
Theorem entry_point_two_bytes_into_region :
  exec_entry = USER_START + USER_EXEC_OFFSET /\
  entry_offset = 2 /\
  entry_offset < sizeof_uint32 /\
  exec_entry = 0x20000402 /\
  in_word USER_START exec_entry.
Proof.
  unfold in_word. repeat split; try reflexivity; vm_compute; congruence.
Qed.


(** C4 (the code departs from the claim).  The pointer word is not read at
    the base of the loadable region: [(uint32_t* ) USER_API_PTR_ADDR] is
    0x20001000, 0xC00 bytes into the region.  On an image whose first word
    asks for the table at 0x20000800 while the word at 0x20001000 holds
    0x20001800, the table is written to 0x20001800 and the bytes at
    0x20000800 stay as they were.  The other steps are as claimed: the
    stack pointer becomes the top of SRAM, control goes to the entry point
    and never comes back. *)
Theorem handoff_reads_pointer_off_base :
  let w := bench_world 0 0 0 in
  let s := with_mem reset_host split_image in
  api_ptr_slot = USER_START + 0xC00 /\
  load32 (mem s) USER_START = 0x20000800 /\
  load32 (mem s) api_ptr_slot = 0x20001800 /\
  (exists s',
     @run_code Z w s = NoReturn s' /\
     trace s' = [ LoadWord 0x20001000 0x20001800; StoreTable 0x20001800;
                  SetStackPointer 0x20002000; Call 0x20000402 ] /\
     sp s' = USER_STACK /\
     load_bytes (mem s') 0x20001800 8 = API_host w /\
     load_bytes (mem s') 0x20000800 8 = [0; 0; 0; 0; 0; 0; 0; 0]).
Proof.
  cbv zeta. repeat split; try reflexivity.
  eexists. repeat split; reflexivity.
Qed.

(** ** Boot sequence: status propagation *)

(** C5.  Once the clock configurator has returned, a negative status of the
    serial-link setup stage ([uart_setup] or [uart_receive_enable]) or of the
    reception stage makes [main] return that very status, in the state the
    failing stage left: nothing is retried and no later stage runs.  The
    self-test stage returns 0 in every state and changes nothing, so it never
    produces a negative status. *)
Theorem negative_status_aborts_boot w fuel s0 s1 :
  board_clocking_init w fuel s0 = Ret tt s1 ->
  (uart_setup_status w < 0 ->
     main w fuel s0 =
       Ret (uart_setup_status w) (with_events (brought_up w s1) [UartSetup])) /\
  (0 <= uart_setup_status w -> uart_receive_enable_status w < 0 ->
     main w fuel s0 =
       Ret (uart_receive_enable_status w)
           (with_events (brought_up w s1) [UartSetup; UartReceiveEnable])) /\
  (forall s, run_tests s = Ret 0 s) /\
  (0 <= uart_setup_status w -> 0 <= uart_receive_enable_status w ->
   uart_recv_buffer_status w < 0 ->
     main w fuel s0 =
       Ret (uart_recv_buffer_status w)
           (with_events (brought_up w s1)
              [UartSetup; UartReceiveEnable;
               UartRecvBuffer USER_START USER_MAX_PROG_SIZE])).
Proof.
  intros Hclk. rewrite (main_after_clock _ _ _ _ Hclk).
  repeat split.
  - intros H. rewrite <- (main_after_clock _ _ _ _ Hclk).
    apply (main_setup_failure _ _ _ _ Hclk H).
  - intros H1 H2. apply Z.ltb_ge in H1. apply Z.ltb_lt in H2.
    unfold bind at 1. rewrite uart_init_eval, H1, H2. cbv beta iota.
    rewrite H2. reflexivity.
  - intros H1 H2 H3. apply Z.ltb_ge in H1. apply Z.ltb_ge in H2.
    unfold bind at 1. rewrite uart_init_eval, H1, H2. simpl.
    unfold bind at 1. rewrite run_tests_eval. simpl.
    unfold bind at 1. unfold receive_code.
    rewrite (receive_code_len_rejected _ _ _ _ H3).
    apply Z.ltb_lt in H3. rewrite H3. unfold ret.
    rewrite with_events_events. reflexivity.
Qed.

Lemma negative_status_aborts_boot_witness :
  main (bench_world (-5) 0 0) 10 reset_host =
    Ret (-5) (with_events (brought_up (bench_world (-5) 0 0) bench_clock_done)
                [UartSetup]) /\
  main (bench_world 0 (-7) 0) 10 reset_host =
    Ret (-7) (with_events (brought_up (bench_world 0 (-7) 0) bench_clock_done)
                [UartSetup; UartReceiveEnable]) /\
  main (bench_world 0 0 (-3)) 10 reset_host =
    Ret (-3) (with_events (brought_up (bench_world 0 0 (-3)) bench_clock_done)
                [UartSetup; UartReceiveEnable;
                 UartRecvBuffer USER_START USER_MAX_PROG_SIZE]).
Proof.
  split; [|split].
  - apply (negative_status_aborts_boot (bench_world (-5) 0 0) 10 reset_host
             bench_clock_done eq_refl).
    simpl. lia.
  - apply (negative_status_aborts_boot (bench_world 0 (-7) 0) 10 reset_host
             bench_clock_done eq_refl); simpl; lia.
  - apply (negative_status_aborts_boot (bench_world 0 0 (-3)) 10 reset_host
             bench_clock_done eq_refl); simpl; lia.
Defined.

(** C7.  When [uart_setup] returns a negative status, [main] returns that
    status right after the call; the tick source is still enabled with its
    exception enabled (nothing after [systick_init] touches it), the
    sequence has initiated no reception and performed no other link
    operation, and memory is as it was when [main] started. *)
Theorem setup_failure_leaves_heartbeat_running w fuel s0 s1 :
  board_clocking_init w fuel s0 = Ret tt s1 ->
  uart_setup_status w < 0 ->
  exists s' evs,
    main w fuel s0 = Ret (uart_setup_status w) s' /\
    Z.testbit (SYSTICK_CSR s') SYSTICK_CSR_ENABLE = true /\
    Z.testbit (SYSTICK_CSR s') SYSTICK_CSR_TICKINT = true /\
    trace s' = trace s0 ++ evs ++ [GpioConfigure; UartSetup] /\
    forallb no_link_op evs = true /\
    recv_initiations (evs ++ [GpioConfigure; UartSetup]) = 0%nat /\
    mem s' = mem s0.
Proof.
  intros Hclk Hneg.
  pose proof (main_setup_failure w fuel s0 s1 Hclk) as Hm.
  destruct (clock_init_no_link_op w fuel s0) as (evs & Ht & Hf & Hc).
  pose proof (clock_init_keeps_mem w fuel s0) as Hmem.
  rewrite Hclk in Ht, Hmem. simpl in Ht, Hmem.
  destruct (brought_up_tick_running w s1) as (He & Hi).
  exists (with_events (brought_up w s1) [UartSetup]), evs.
  split; [exact (Hm Hneg)|].
  split; [exact He|]. split; [exact Hi|].
  split; [simpl; rewrite Ht; repeat rewrite <- app_assoc; reflexivity|].
  split; [exact Hf|].
  split; [|exact Hmem].
  rewrite recv_initiations_app. unfold recv_initiations at 2. simpl. lia.
Qed.

Lemma setup_failure_leaves_heartbeat_running_witness :
  exists s' evs,
    main (bench_world (-5) 0 0) 10 reset_host = Ret (-5) s' /\
    Z.testbit (SYSTICK_CSR s') SYSTICK_CSR_ENABLE = true /\
    Z.testbit (SYSTICK_CSR s') SYSTICK_CSR_TICKINT = true /\
    trace s' = trace reset_host ++ evs ++ [GpioConfigure; UartSetup] /\
    forallb no_link_op evs = true /\
    recv_initiations (evs ++ [GpioConfigure; UartSetup]) = 0%nat /\
    mem s' = mem reset_host.
Proof.
  apply (setup_failure_leaves_heartbeat_running (bench_world (-5) 0 0) 10
           reset_host bench_clock_done eq_refl).
  simpl. lia.
Defined.

(** ** Liveness indicator *)

(** The claim of C6 as stated fails when the 32-bit tick counter wraps: the
    invocation number 2^32 flips the indicator although 2^32 is not a
    multiple of [SYSTICK_FREQ]; the flip before it was at invocation
    4294900000, only 67296 invocations earlier. *)
Lemma indicator_toggles_on_counter_wrap :
  toggles (after_ticks 4294967295) = true /\
  (4294967296 mod SYSTICK_FREQ =? 0) = false /\
  toggles (after_ticks 4294899999) = true /\
  4294967296 - 4294900000 = 67296.
Proof.
  split; [|split; [|split]].
  - rewrite toggles_below_wrap by (vm_compute; reflexivity). reflexivity.
  - reflexivity.
  - rewrite toggles_below_wrap by (vm_compute; reflexivity). reflexivity.
  - reflexivity.
Qed.

(** C6 (amended).  An invocation of the tick handler flips the indicator
    exactly when the incremented 32-bit tick counter is a multiple of
    [SYSTICK_FREQ]; as long as the counter has not wrapped (fewer than 2^32
    invocations so far) the counter is the number of invocations, so the
    flips come once per [SYSTICK_FREQ] invocations and never otherwise, the
    indicator is on after an odd number of completed intervals and off after
    an even number, and the pin follows it.  The indicator starts off and the
    first flip, at invocation [SYSTICK_FREQ], turns it on. *)
Theorem indicator_toggles_every_interval (n : N) :
  Z.of_N n + 1 < modulus ->
  toggles (after_ticks n) = ((Z.of_N n + 1) mod SYSTICK_FREQ =? 0) /\
  handler_ticks (after_ticks n) = Z.of_N n /\
  led_is_on (after_ticks n) = Z.odd (Z.of_N n / SYSTICK_FREQ) /\
  PC8 (after_ticks n) = led_is_on (after_ticks n) /\
  (forall h, toggles h =
             (rem32 (add32 (handler_ticks h) 1) SYSTICK_FREQ =? 0)) /\
  led_is_on heartbeat_init = false /\
  led_is_on (after_ticks (Z.to_N SYSTICK_FREQ)) = true /\
  (Z.of_N n < SYSTICK_FREQ -> led_is_on (after_ticks n) = false).
Proof.
  intros Hn.
  destruct (after_ticks_below_wrap n ltac:(lia)) as (Ht & Hl & Hp).
  split.
  { rewrite toggles_iff_multiple, Ht.
    unfold add32, rem32. rewrite (wrap32_small (Z.of_N n + 1)) by lia.
    rewrite wrap32_small; [reflexivity|].
    pose proof (Z.mod_pos_bound (Z.of_N n + 1) SYSTICK_FREQ
                  ltac:(rewrite SYSTICK_FREQ_value; lia)) as B.
    rewrite SYSTICK_FREQ_value in *. unfold modulus. lia. }
  split; [exact Ht|]. split; [exact Hl|]. split; [exact Hp|].
  split; [exact toggles_iff_multiple|]. split; [reflexivity|].
  split.
  { destruct (after_ticks_below_wrap (Z.to_N SYSTICK_FREQ)
                ltac:(vm_compute; reflexivity)) as (_ & Hl' & _).
    rewrite Hl'. reflexivity. }
  intros Hlt. rewrite Hl, Z.div_small by lia. reflexivity.
Qed.

Lemma indicator_toggles_every_interval_witness :
  toggles (after_ticks 99999) = true /\
  toggles (after_ticks 100000) = false /\
  led_is_on (after_ticks 100000) = true /\
  led_is_on (after_ticks 200000) = false.
Proof.
  split; [|split; [|split]].
  - rewrite (proj1 (indicator_toggles_every_interval 99999
                      ltac:(vm_compute; reflexivity))).
    reflexivity.
  - rewrite (proj1 (indicator_toggles_every_interval 100000
                      ltac:(vm_compute; reflexivity))).
    reflexivity.
  - rewrite (proj1 (proj2 (proj2 (indicator_toggles_every_interval 100000
                      ltac:(vm_compute; reflexivity))))).
    reflexivity.
  - rewrite (proj1 (proj2 (proj2 (indicator_toggles_every_interval 200000
                      ltac:(vm_compute; reflexivity))))).
    reflexivity.
Defined.

(** ** Code loader *)

(** Whatever the outcome, the loader's first operation is the receive
    request and everything after it is a completion poll. *)
Lemma receive_code_len_trace w len fuel s :
  exists evs,
    trace (final_state (receive_code_len w len fuel s)) =
      trace s ++ UartRecvBuffer recv_destination len :: evs /\
    forallb is_recv_poll evs = true /\
    recv_initiations evs = 0%nat.
Proof.
  assert (D : disciplined is_recv_poll 0
                (if uart_recv_buffer_status w <? 0
                 then ret (uart_recv_buffer_status w)
                 else spin_while (recv_wait_cond w recv_destination len) fuel 0 ;;
                      ret 0)).
  { unfold recv_wait_cond. discipline_steps is_recv_poll. }
  destruct (D (with_events s [UartRecvBuffer recv_destination len]))
    as (evs & T & F & C).
  exists evs. split; [|split; [exact F|lia]].
  unfold receive_code_len. unfold bind at 1. unfold emit at 1.
  cbv zeta. rewrite T. simpl. rewrite <- app_assoc. reflexivity.
Qed.

Lemma receive_code_len_success w len fuel s s' :
  receive_code_len w len fuel s = Ret 0 s' ->
  exists n,
    (n < fuel)%nat /\
    is_recv_complete w n = true /\
    (forall j, (j < n)%nat -> is_recv_complete w j = false) /\
    trace s' = trace s ++ UartRecvBuffer recv_destination len :: recv_polls n.
Proof.
  unfold receive_code_len. unfold bind at 1. unfold emit at 1. cbv zeta.
  destruct (uart_recv_buffer_status w <? 0) eqn:E.
  - unfold ret. intros H. injection H as H _. apply Z.ltb_lt in E. lia.
  - unfold bind.
    destruct (spin_while (recv_wait_cond w recv_destination len) fuel 0
                (with_events s [UartRecvBuffer recv_destination len]))
      as [[] s1|s1|s1] eqn:W; try discriminate.
    unfold ret. intros H. injection H as H. subst s1.
    destruct (recv_wait_exit _ _ _ _ _ _ _ W) as (n & Hf & Hn & Hb & Ht & _).
    exists n. simpl in Hn, Hb, Ht. repeat split; try assumption.
    rewrite Ht. rewrite <- app_assoc. reflexivity.
Qed.

Lemma receive_code_len_total w len fuel s n :
  0 <= uart_recv_buffer_status w ->
  (n < fuel)%nat ->
  is_recv_complete w n = true ->
  (forall j, (j < n)%nat -> is_recv_complete w j = false) ->
  exists s', receive_code_len w len fuel s = Ret 0 s'.
Proof.
  intros Hs Hf Hn Hb. apply Z.ltb_ge in Hs.
  destruct (recv_wait_total w recv_destination len n fuel 0%nat
              (with_events s [UartRecvBuffer recv_destination len])
              Hf Hn Hb) as (s' & W).
  exists s'. unfold receive_code_len. unfold bind at 1. unfold emit at 1.
  cbv zeta. rewrite Hs. unfold bind. rewrite W. reflexivity.
Qed.

(** C10.  Every run of the code loader asks for exactly
    [SRAM_SIZE - USER_OFFS] bytes at the base of the loadable region, then
    only polls the completion predicate; it returns success only after a
    poll that saw the predicate true (all earlier polls saw it false), and it
    does return success as soon as the predicate is seen true, given that the
    driver accepted the request. *)
Theorem code_loader_requests_max_then_polls w fuel s :
  recv_destination = USER_START /\
  USER_MAX_PROG_SIZE = SRAM_SIZE - USER_OFFS /\
  (exists evs,
     trace (final_state (receive_code w fuel s)) =
       trace s ++ UartRecvBuffer USER_START USER_MAX_PROG_SIZE :: evs /\
     forallb is_recv_poll evs = true) /\
  (forall s',
     receive_code w fuel s = Ret 0 s' ->
     exists n,
       is_recv_complete w n = true /\
       (forall j, (j < n)%nat -> is_recv_complete w j = false) /\
       trace s' =
         trace s ++ UartRecvBuffer USER_START USER_MAX_PROG_SIZE
                 :: recv_polls n) /\
  (forall n,
     0 <= uart_recv_buffer_status w ->
     (n < fuel)%nat ->
     is_recv_complete w n = true ->
     (forall j, (j < n)%nat -> is_recv_complete w j = false) ->
     exists s', receive_code w fuel s = Ret 0 s').
Proof.
  split; [reflexivity|]. split; [reflexivity|]. split; [|split].
  - destruct (receive_code_len_trace w USER_MAX_PROG_SIZE fuel s)
      as (evs & T & F & _).
    exists evs. split; [exact T|exact F].
  - intros s' H.
    destruct (receive_code_len_success _ _ _ _ _ H) as (n & _ & Hn & Hb & Ht).
    exists n. repeat split; assumption.
  - intros n Hs Hf Hn Hb. unfold receive_code.
    apply (receive_code_len_total w _ fuel s n Hs Hf Hn Hb).
Qed.

Lemma code_loader_requests_max_then_polls_witness :
  exists s', receive_code (bench_world 0 0 0) 10 reset_host = Ret 0 s'.
Proof.
  apply (proj2 (proj2 (proj2 (proj2
           (code_loader_requests_max_then_polls (bench_world 0 0 0) 10 reset_host))))
         2%nat).
  - simpl. lia.
  - lia.
  - reflexivity.
  - intros [|[|j]] Hj; [reflexivity|reflexivity|lia].
Defined.

(** ** Serial link discipline *)

(** C9.  Whatever the environment, the poll budget and the outcome, the
    operations [main] performs on the serial link are among setup,
    receive-enable, receive initiation and polling of the receive-completion
    predicate, with at most one receive initiation: the transmitter is never
    enabled and no send is ever initiated, up to and including the
    hand-off.  The self-test stage performs no operation at all and returns
    0. *)
Theorem boot_never_transmits w fuel s0 :
  (exists evs,
     trace (final_state (main w fuel s0)) = trace s0 ++ evs /\
     forallb boot_link_discipline evs = true /\
     (recv_initiations evs <= 1)%nat) /\
  (forall s, run_tests s = Ret 0 s).
Proof.
  split; [apply main_disciplined|apply run_tests_eval].
Qed.

(** * Further properties of the sequence *)

(** ** Wait loops that only observe *)

(** a loop condition that performs one observation [ev k] and evaluates to
    [c k]; the three conditions of the clock configurator have this shape *)
Definition observe (ev : nat -> event) (c : nat -> bool) (k : nat) : M bool :=
  emit (ev k) ;; ret (c k).

Definition hse_poll (w : world) (k : nat) : event :=
  RccCrCheckBit REG_RCC_CR_HSERDY (rcc_cr_hse_wait w k).

Definition pll_poll (w : world) (k : nat) : event :=
  RccCrCheckBit REG_RCC_CR_PLLRDY (rcc_cr_pll_wait w k).

Definition sws_poll (w : world) (k : nat) : event :=
  RccGetSws (rcc_sws_wait w k).

(** what the clock configurator does when its waits take [n1], [n2] and
    [n3] re-evaluations *)
Definition clock_trace (w : world) (n1 n2 n3 : nat) : list event :=
  [RccCrSetBit REG_RCC_CR_HSEON] ++ map (hse_poll w) (seq 0 (S n1)) ++
  [RccSetPrediv 2; RccSetPllSrc; RccSetPllMul 12;
   RccCrSetBit REG_RCC_CR_PLLON] ++ map (pll_poll w) (seq 0 (S n2)) ++
  [RccSetHpreNotDiv; RccSetSw REG_RCC_CFGR_SW_PLL] ++
  map (sws_poll w) (seq 0 (S n3)) ++
  [RccSetPpreNotDiv].

(** [m] never gives control away *)
Definition stays {A} (m : M A) : Prop := forall s s', m s <> NoReturn s'.

Lemma bind_Ret_inv {A B} (m : M A) (k : A -> M B) s b s' :
  bind m k s = Ret b s' -> exists a s1, m s = Ret a s1 /\ k a s1 = Ret b s'.
Proof.
  unfold bind. destruct (m s) as [a s1|s1|s1]; try discriminate.
  intros H. exists a, s1. split; [reflexivity|exact H].
Qed.

Lemma emit_Ret_inv e s (u : unit) s' :
  emit e s = Ret u s' -> s' = with_events s [e].
Proof. unfold emit. intros H. injection H as _ H. symmetry. exact H. Qed.

Lemma stays_ret {A} (a : A) : stays (ret a).
Proof. intros s s' H. discriminate. Qed.

Lemma stays_emit e : stays (emit e).
Proof. intros s s' H. discriminate. Qed.

Lemma stays_bind {A B} (m : M A) (k : A -> M B) :
  stays m -> (forall a, stays (k a)) -> stays (bind m k).
Proof.
  intros Hm Hk s s' H. unfold bind in H.
  destruct (m s) as [a s1|s1|s1] eqn:E; try discriminate.
  - exact (Hk a s1 s' H).
  - exact (Hm s s1 E).
Qed.

Lemma stays_spin cond fuel :
  (forall k, stays (cond k)) -> forall k, stays (spin_while cond fuel k).
Proof.
  intros Hc k s s'. apply spin_while_not_NoReturn. intros k0. apply Hc.
Qed.

Lemma spin_observe_exit ev c fuel : forall k s s',
  spin_while (observe ev c) fuel k s = Ret tt s' ->
  exists n,
    (n < fuel)%nat /\
    c (k + n)%nat = false /\
    (forall j, (j < n)%nat -> c (k + j)%nat = true) /\
    s' = with_events s (map ev (seq k (S n))).
Proof.
  induction fuel as [|fuel IH]; intros k s s' H; [discriminate|].
  simpl in H. apply bind_Ret_inv in H. destruct H as (b & s1 & Hc & H).
  unfold observe, bind, emit, ret in Hc. injection Hc as Hb Hs. subst b s1.
  destruct (c k) eqn:Ck.
  - destruct (IH _ _ _ H) as (n & Hf & Hn & Hj & Hs).
    exists (S n). rewrite <- plus_n_Sm. split; [lia|]. split; [exact Hn|]. split.
    + intros [|j] Hlt; [rewrite Nat.add_0_r; exact Ck|].
      rewrite <- plus_n_Sm. apply Hj. lia.
    + rewrite Hs, with_events_events. reflexivity.
  - unfold ret in H. injection H as H. subst s'.
    exists 0%nat. rewrite Nat.add_0_r. split; [lia|]. split; [exact Ck|].
    split; [intros j Hj; lia|reflexivity].
Qed.

Lemma spin_observe_total ev c n : forall fuel k s,
  (n < fuel)%nat ->
  c (k + n)%nat = false ->
  (forall j, (j < n)%nat -> c (k + j)%nat = true) ->
  spin_while (observe ev c) fuel k s =
    Ret tt (with_events s (map ev (seq k (S n)))).
Proof.
  induction n as [|n IH]; intros fuel k s Hf Hn Hj;
    (destruct fuel as [|fuel]; [lia|]); simpl;
    unfold bind at 1; unfold observe at 1, bind, emit, ret.
  - rewrite Nat.add_0_r in Hn. rewrite Hn. reflexivity.
  - pose proof (Hj 0%nat ltac:(lia)) as H0. rewrite Nat.add_0_r in H0.
    rewrite H0. rewrite IH.
    + rewrite with_events_events. reflexivity.
    + lia.
    + rewrite <- plus_n_Sm in Hn. exact Hn.
    + intros j Hlt. specialize (Hj (S j) ltac:(lia)).
      rewrite <- plus_n_Sm in Hj. exact Hj.
Qed.

Lemma CHECK_BIT_truthy reg bit :
  0 <= bit -> truthy (CHECK_BIT reg bit) = Z.testbit reg bit.
Proof.
  intros Hb. destruct (Z.testbit reg bit) eqn:T.
  - unfold truthy. apply negb_true_iff, Z.eqb_neq.
    apply CHECK_BIT_nonzero; assumption.
  - apply truthy_false. unfold CHECK_BIT. apply Z.bits_inj'. intros i Hi.
    rewrite Z.land_spec, Z.bits_0, Z.shiftl_spec by exact Hi.
    destruct (Z.eq_dec i bit) as [->|Ne]; [rewrite T; reflexivity|].
    destruct (i - bit) as [|p|p] eqn:D; [lia| |].
    + destruct p; simpl; apply andb_false_r.
    + simpl. apply andb_false_r.
Qed.

(** the parts of a run of the clock configurator that returns *)
Lemma clock_init_inv w fuel s s' :
  board_clocking_init w fuel s = Ret tt s' ->
  exists n1 n2 n3,
    (n1 < fuel)%nat /\ (n2 < fuel)%nat /\ (n3 < fuel)%nat /\
    truthy (CHECK_BIT (rcc_cr_hse_wait w n1) REG_RCC_CR_HSERDY) = false /\
    (forall j, (j < n1)%nat ->
       truthy (CHECK_BIT (rcc_cr_hse_wait w j) REG_RCC_CR_HSERDY) = true) /\
    truthy (CHECK_BIT (rcc_cr_pll_wait w n2) REG_RCC_CR_PLLRDY) = false /\
    (forall j, (j < n2)%nat ->
       truthy (CHECK_BIT (rcc_cr_pll_wait w j) REG_RCC_CR_PLLRDY) = true) /\
    negb (rcc_sws_wait w n3 =? REG_RCC_CFGR_SWS_PLL) = false /\
    (forall j, (j < n3)%nat ->
       negb (rcc_sws_wait w j =? REG_RCC_CFGR_SWS_PLL) = true) /\
    s' = with_events s (clock_trace w n1 n2 n3).
Proof.
  unfold board_clocking_init. intros H.
  apply bind_Ret_inv in H. destruct H as (u0 & t0 & E0 & H).
  apply emit_Ret_inv in E0. subst t0.
  apply bind_Ret_inv in H. destruct H as ([] & t1 & W1 & H).
  apply (spin_observe_exit (hse_poll w)
           (fun k => truthy (CHECK_BIT (rcc_cr_hse_wait w k) REG_RCC_CR_HSERDY)))
    in W1.
  destruct W1 as (n1 & F1 & C1 & B1 & ->).
  apply bind_Ret_inv in H. destruct H as (u1 & t2 & E1 & H).
  apply emit_Ret_inv in E1. subst t2.
  apply bind_Ret_inv in H. destruct H as (u2 & t3 & E2 & H).
  apply emit_Ret_inv in E2. subst t3.
  apply bind_Ret_inv in H. destruct H as (u3 & t4 & E3 & H).
  apply emit_Ret_inv in E3. subst t4.
  apply bind_Ret_inv in H. destruct H as (u4 & t5 & E4 & H).
  apply emit_Ret_inv in E4. subst t5.
  apply bind_Ret_inv in H. destruct H as ([] & t6 & W2 & H).
  apply (spin_observe_exit (pll_poll w)
           (fun k => truthy (CHECK_BIT (rcc_cr_pll_wait w k) REG_RCC_CR_PLLRDY)))
    in W2.
  destruct W2 as (n2 & F2 & C2 & B2 & ->).
  apply bind_Ret_inv in H. destruct H as (u5 & t7 & E5 & H).
  apply emit_Ret_inv in E5. subst t7.
  apply bind_Ret_inv in H. destruct H as (u6 & t8 & E6 & H).
  apply emit_Ret_inv in E6. subst t8.
  apply bind_Ret_inv in H. destruct H as ([] & t9 & W3 & H).
  apply (spin_observe_exit (sws_poll w)
           (fun k => negb (rcc_sws_wait w k =? REG_RCC_CFGR_SWS_PLL)))
    in W3.
  destruct W3 as (n3 & F3 & C3 & B3 & ->).
  apply emit_Ret_inv in H. subst s'.
  exists n1, n2, n3. simpl in C1, B1, C2, B2, C3, B3.
  repeat (split; [assumption|]).
  repeat rewrite with_events_events. unfold clock_trace.
  repeat rewrite <- app_assoc. reflexivity.
Qed.

Lemma clock_init_stays w fuel : stays (board_clocking_init w fuel).
Proof.
  unfold board_clocking_init, hse_wait_cond, pll_wait_cond, sws_wait_cond.
  repeat first
    [ apply stays_ret
    | apply stays_emit
    | apply stays_spin; intros
    | apply stays_bind; [|intros] ].
Qed.

(** ** Clock configurator: order, termination, no escape *)

(** X1.  A run of the clock configurator that returns has performed its
    steps in the order of the source and nothing else: HSE on, polls of
    HSERDY, pre-divider 2, PLL source, multiplier 12, PLL on, polls of
    PLLRDY, AHB prescaler, switch to PLL, polls of the switch status, APB
    prescaler.  The last poll of the switch status read PLL and every
    earlier one read something else, so the APB prescaler is set only once
    the switch is confirmed; the host state is otherwise untouched. *)
Theorem clock_init_steps_in_order w fuel s s' :
  board_clocking_init w fuel s = Ret tt s' ->
  exists n1 n2 n3,
    s' = with_events s (clock_trace w n1 n2 n3) /\
    rcc_sws_wait w n3 = REG_RCC_CFGR_SWS_PLL /\
    (forall j, (j < n3)%nat -> rcc_sws_wait w j <> REG_RCC_CFGR_SWS_PLL) /\
    Z.testbit (rcc_cr_hse_wait w n1) REG_RCC_CR_HSERDY = false /\
    (forall j, (j < n1)%nat ->
       Z.testbit (rcc_cr_hse_wait w j) REG_RCC_CR_HSERDY = true) /\
    Z.testbit (rcc_cr_pll_wait w n2) REG_RCC_CR_PLLRDY = false /\
    (forall j, (j < n2)%nat ->
       Z.testbit (rcc_cr_pll_wait w j) REG_RCC_CR_PLLRDY = true).
Proof.
  intros H.
  destruct (clock_init_inv _ _ _ _ H)
    as (n1 & n2 & n3 & _ & _ & _ & C1 & B1 & C2 & B2 & C3 & B3 & Hs).
  exists n1, n2, n3.
  split; [exact Hs|].
  split; [apply Z.eqb_eq, negb_false_iff; exact C3|].
  split; [intros j Hj; apply Z.eqb_neq, negb_true_iff, B3; exact Hj|].
  split; [rewrite <- CHECK_BIT_truthy by (unfold REG_RCC_CR_HSERDY; lia);
          exact C1|].
  split; [intros j Hj;
          rewrite <- CHECK_BIT_truthy by (unfold REG_RCC_CR_HSERDY; lia);
          apply B1; exact Hj|].
  split; [rewrite <- CHECK_BIT_truthy by (unfold REG_RCC_CR_PLLRDY; lia);
          exact C2|].
  intros j Hj. rewrite <- CHECK_BIT_truthy by (unfold REG_RCC_CR_PLLRDY; lia).
  apply B2. exact Hj.
Qed.

Lemma clock_init_steps_in_order_witness :
  exists n1 n2 n3,
    bench_clock_done = with_events reset_host (clock_trace (bench_world 0 0 0) n1 n2 n3) /\
    rcc_sws_wait (bench_world 0 0 0) n3 = REG_RCC_CFGR_SWS_PLL /\
    (forall j, (j < n3)%nat ->
       rcc_sws_wait (bench_world 0 0 0) j <> REG_RCC_CFGR_SWS_PLL) /\
    Z.testbit (rcc_cr_hse_wait (bench_world 0 0 0) n1) REG_RCC_CR_HSERDY = false /\
    (forall j, (j < n1)%nat ->
       Z.testbit (rcc_cr_hse_wait (bench_world 0 0 0) j) REG_RCC_CR_HSERDY = true) /\
    Z.testbit (rcc_cr_pll_wait (bench_world 0 0 0) n2) REG_RCC_CR_PLLRDY = false /\
    (forall j, (j < n2)%nat ->
       Z.testbit (rcc_cr_pll_wait (bench_world 0 0 0) j) REG_RCC_CR_PLLRDY = true).
Proof.
  exact (clock_init_steps_in_order (bench_world 0 0 0) 10 reset_host
           bench_clock_done eq_refl).
Defined.

(** X2.  The clock configurator returns as soon as its three loop conditions
    allow it, whatever the poll budget above the numbers of polls needed:
    when the HSE loop condition first fails at poll [n1], the PLL loop
    condition at poll [n2] and the switch status first reads PLL at poll
    [n3], it returns after exactly these polls. *)
Theorem clock_init_terminates w fuel s n1 n2 n3 :
  (n1 < fuel)%nat -> (n2 < fuel)%nat -> (n3 < fuel)%nat ->
  Z.testbit (rcc_cr_hse_wait w n1) REG_RCC_CR_HSERDY = false ->
  (forall j, (j < n1)%nat ->
     Z.testbit (rcc_cr_hse_wait w j) REG_RCC_CR_HSERDY = true) ->
  Z.testbit (rcc_cr_pll_wait w n2) REG_RCC_CR_PLLRDY = false ->
  (forall j, (j < n2)%nat ->
     Z.testbit (rcc_cr_pll_wait w j) REG_RCC_CR_PLLRDY = true) ->
  rcc_sws_wait w n3 = REG_RCC_CFGR_SWS_PLL ->
  (forall j, (j < n3)%nat -> rcc_sws_wait w j <> REG_RCC_CFGR_SWS_PLL) ->
  board_clocking_init w fuel s = Ret tt (with_events s (clock_trace w n1 n2 n3)).
Proof.
  intros F1 F2 F3 C1 B1 C2 B2 C3 B3.
  assert (W1 : forall t, spin_while (hse_wait_cond w) fuel 0 t =
                 Ret tt (with_events t (map (hse_poll w) (seq 0 (S n1))))).
  { intros t.
    apply (spin_observe_total (hse_poll w)
             (fun k => truthy (CHECK_BIT (rcc_cr_hse_wait w k) REG_RCC_CR_HSERDY))).
    - exact F1.
    - simpl. rewrite CHECK_BIT_truthy by (unfold REG_RCC_CR_HSERDY; lia). exact C1.
    - intros j Hj. simpl.
      rewrite CHECK_BIT_truthy by (unfold REG_RCC_CR_HSERDY; lia). exact (B1 j Hj). }
  assert (W2 : forall t, spin_while (pll_wait_cond w) fuel 0 t =
                 Ret tt (with_events t (map (pll_poll w) (seq 0 (S n2))))).
  { intros t.
    apply (spin_observe_total (pll_poll w)
             (fun k => truthy (CHECK_BIT (rcc_cr_pll_wait w k) REG_RCC_CR_PLLRDY))).
    - exact F2.
    - simpl. rewrite CHECK_BIT_truthy by (unfold REG_RCC_CR_PLLRDY; lia). exact C2.
    - intros j Hj. simpl.
      rewrite CHECK_BIT_truthy by (unfold REG_RCC_CR_PLLRDY; lia). exact (B2 j Hj). }
  assert (W3 : forall t, spin_while (sws_wait_cond w) fuel 0 t =
                 Ret tt (with_events t (map (sws_poll w) (seq 0 (S n3))))).
  { intros t.
    apply (spin_observe_total (sws_poll w)
             (fun k => negb (rcc_sws_wait w k =? REG_RCC_CFGR_SWS_PLL))).
    - exact F3.
    - simpl. apply negb_false_iff, Z.eqb_eq. exact C3.
    - intros j Hj. simpl. apply negb_true_iff, Z.eqb_neq. exact (B3 j Hj). }
  unfold board_clocking_init.
  unfold bind at 1. unfold emit at 1.
  unfold bind at 1. rewrite W1.
  unfold bind at 1. unfold emit at 1.
  unfold bind at 1. unfold emit at 1.
  unfold bind at 1. unfold emit at 1.
  unfold bind at 1. unfold emit at 1.
  unfold bind at 1. rewrite W2.
  unfold bind at 1. unfold emit at 1.
  unfold bind at 1. unfold emit at 1.
  unfold bind at 1. rewrite W3.
  unfold emit.
  repeat rewrite with_events_events. unfold clock_trace.
  repeat rewrite <- app_assoc. reflexivity.
Qed.

Lemma clock_init_terminates_witness :
  board_clocking_init (bench_world 0 0 0) 10 reset_host =
    Ret tt (with_events reset_host (clock_trace (bench_world 0 0 0) 0 0 3)).
Proof.
  apply clock_init_terminates; try lia; try reflexivity.
  intros [|[|[|j]]] Hj; simpl; try discriminate. lia.
Defined.

(** X3.  There is no escape from the switch wait: on a board whose switch
    status never reads PLL, [main] is still inside the clock configurator
    after any number of polls; it has neither returned nor handed control
    over, and it has performed no operation on the serial link and written
    no memory. *)
Theorem boot_stuck_without_clock_switch w fuel s :
  (forall k, rcc_sws_wait w k <> REG_RCC_CFGR_SWS_PLL) ->
  exists s' evs,
    main w fuel s = OutOfFuel s' /\
    trace s' = trace s ++ evs /\
    forallb no_link_op evs = true /\
    mem s' = mem s.
Proof.
  intros Hsws.
  destruct (clock_init_no_link_op w fuel s) as (evs & T & F & _).
  pose proof (clock_init_keeps_mem w fuel s) as Hm.
  unfold main, bind at 1.
  destruct (board_clocking_init w fuel s) as [[] s1|s1|s1] eqn:E.
  - exfalso. destruct (clock_init_inv _ _ _ _ E)
      as (n1 & n2 & n3 & _ & _ & _ & _ & _ & _ & _ & C3 & _).
    apply negb_false_iff, Z.eqb_eq in C3. exact (Hsws n3 C3).
  - exists s1, evs. simpl in T, Hm.
    split; [reflexivity|]. split; [exact T|]. split; [exact F|exact Hm].
  - exfalso. exact (clock_init_stays w fuel s s1 E).
Qed.

(** a board whose clock switch never takes effect *)
Definition stuck_world : world :=
  {| rcc_cr_hse_wait := fun _ => 0x00010083;
     rcc_cr_pll_wait := fun _ => 0x01010083;
     rcc_sws_wait := fun _ => 0;
     calib := {| NOREF := 0; SKEW := 1; TENMS := 6000 |};
     uart_setup_status := 0;
     uart_receive_enable_status := 0;
     uart_recv_buffer_status := 0;
     is_recv_complete := fun _ => true;
     rx_byte := fun _ => 0;
     API_host := [];
     guest_returns := false |}.

Lemma boot_stuck_without_clock_switch_witness :
  exists s' evs,
    main stuck_world 25 reset_host = OutOfFuel s' /\
    trace s' = trace reset_host ++ evs /\
    forallb no_link_op evs = true /\
    mem s' = mem reset_host.
Proof.
  apply (boot_stuck_without_clock_switch stuck_world 25 reset_host).
  intros k. simpl. discriminate.
Defined.

(** ** Tick source *)

(** X4.  On the inexact branch the reload value makes the tick period
    exactly the requested number of microseconds of the selected source:
    reload * 1,000,000 = period * source frequency (6 MHz with the reference
    clock, 48 MHz without), for every period whose product with 48 fits 32
    bits. *)
Theorem inexact_reload_gives_requested_period P c :
  SKEW c <> 0 -> 0 <= P -> P * 48 < modulus ->
  reload_value P c * 1000000 = P * systick_src_freq c /\
  reload_value P c = P * (if ref_freq_avail c then 6 else 48).
Proof.
  intros Hs H0 Hb. unfold reload_value, systick_src_freq.
  apply Z.eqb_neq in Hs. unfold truthy. rewrite Hs. simpl negb. cbv iota.
  destruct (ref_freq_avail c).
  - change (div32 (div32 CPU_FREQENCY REF_FREQUENCY_DIV) 1000000) with 6.
    change (div32 CPU_FREQENCY REF_FREQUENCY_DIV) with 6000000.
    unfold mul32. rewrite wrap32_small by lia. lia.
  - change (div32 CPU_FREQENCY 1000000) with 48.
    change CPU_FREQENCY with 48000000.
    unfold mul32. rewrite wrap32_small by lia. lia.
Qed.

Lemma inexact_reload_gives_requested_period_witness :
  reload_value 10 {| NOREF := 0; SKEW := 1; TENMS := 6000 |} * 1000000 =
    10 * systick_src_freq {| NOREF := 0; SKEW := 1; TENMS := 6000 |} /\
  reload_value 10 {| NOREF := 0; SKEW := 1; TENMS := 6000 |} =
    10 * (if ref_freq_avail {| NOREF := 0; SKEW := 1; TENMS := 6000 |}
          then 6 else 48).
Proof.
  apply inexact_reload_gives_requested_period.
  - simpl. discriminate.
  - lia.
  - unfold modulus. lia.
Defined.

(** X5.  Whatever the calibration register holds, [main] leaves the tick
    source with the current-value register cleared and the reload register
    at 59 (inexact, reference clock), at 479 (inexact, CPU clock) or at
    0xFFFFFFFF (exact branch, where the reload value is 0 and line 133
    subtracts 1 from it). *)
Theorem main_programs_reload_register w s1 :
  SYSTICK_CVR (brought_up w s1) = 0 /\
  SYSTICK_RVR (brought_up w s1) =
    if truthy (SKEW (calib w))
    then if truthy (NOREF (calib w)) then 479 else 59
    else 0xFFFFFFFF.
Proof.
  split; [reflexivity|].
  unfold brought_up, systick_programmed. simpl SYSTICK_RVR.
  unfold reload_value, systick_src_freq, ref_freq_avail.
  destruct (truthy (SKEW (calib w))) eqn:Hs; simpl negb; cbv iota.
  - destruct (truthy (NOREF (calib w))); reflexivity.
  - apply truthy_false in Hs. rewrite Hs.
    destruct (truthy (NOREF (calib w))); reflexivity.
Qed.

(** ** Tick handler *)

Lemma handler_ticks_step h :
  handler_ticks (systick_handler h) = add32 (handler_ticks h) 1.
Proof.
  unfold systick_handler.
  destruct (rem32 (add32 (handler_ticks h) 1) SYSTICK_FREQ =? 0);
    [destruct (Bool.eqb (led_is_on h) false)|]; reflexivity.
Qed.

Lemma pin_follows_flag_step h :
  PC8 h = led_is_on h -> PC8 (systick_handler h) = led_is_on (systick_handler h).
Proof.
  intros H. unfold systick_handler.
  destruct (rem32 (add32 (handler_ticks h) 1) SYSTICK_FREQ =? 0);
    [destruct (Bool.eqb (led_is_on h) false)|]; simpl; [reflexivity..|exact H].
Qed.

(** X6.  After any number [n] of invocations of the tick handler, also
    beyond the wrap of the counter, the counter is [n] modulo 2^32, the pin
    is in the state of the indicator flag, and the next invocation flips the
    indicator exactly when the counter value it produces is a multiple of
    [SYSTICK_FREQ]. *)
Theorem heartbeat_invariants (n : N) :
  handler_ticks (after_ticks n) = Z.of_N n mod modulus /\
  PC8 (after_ticks n) = led_is_on (after_ticks n) /\
  toggles (after_ticks n) =
    (((Z.of_N n + 1) mod modulus) mod SYSTICK_FREQ =? 0).
Proof.
  assert (I : handler_ticks (after_ticks n) = Z.of_N n mod modulus /\
              PC8 (after_ticks n) = led_is_on (after_ticks n)).
  { induction n as [|n IH] using N.peano_ind.
    - split; reflexivity.
    - destruct IH as (Ht & Hp). rewrite after_ticks_succ. split.
      + rewrite handler_ticks_step, Ht. unfold add32, wrap32.
        rewrite Z.add_mod_idemp_l by (unfold modulus; lia).
        f_equal. lia.
      + apply pin_follows_flag_step. exact Hp. }
  destruct I as (Ht & Hp). split; [exact Ht|]. split; [exact Hp|].
  rewrite toggles_iff_multiple, Ht. unfold add32, rem32, wrap32.
  rewrite Z.add_mod_idemp_l by (unfold modulus; lia).
  rewrite (Z.mod_small (_ mod SYSTICK_FREQ)); [reflexivity|].
  pose proof (Z.mod_pos_bound ((Z.of_N n + 1) mod modulus) SYSTICK_FREQ
                ltac:(rewrite SYSTICK_FREQ_value; lia)) as B.
  rewrite SYSTICK_FREQ_value in *. unfold modulus in *. lia.
Qed.

(** ** Code loader and boot sequence *)

Lemma receive_code_len_Ret w len fuel s e s' :
  receive_code_len w len fuel s = Ret e s' ->
  (e = uart_recv_buffer_status w /\ e < 0) \/ e = 0.
Proof.
  unfold receive_code_len. unfold bind at 1. unfold emit at 1. cbv zeta.
  destruct (uart_recv_buffer_status w <? 0) eqn:E.
  - unfold ret. intros H. injection H as H _. left.
    apply Z.ltb_lt in E. split; [symmetry; exact H|lia].
  - intros H. apply bind_Ret_inv in H. destruct H as (a & s1 & _ & H).
    unfold ret in H. injection H as H _. right. symmetry. exact H.
Qed.

(** the steps of the hand-off, for every state *)
Lemma run_code_steps {A} w s :
  exists s',
    @run_code A w s = NoReturn s' /\
    sp s' = USER_STACK /\
    trace s' = trace s ++
      [ LoadWord api_ptr_slot (load32 (mem s) api_ptr_slot);
        StoreTable (load32 (mem s) api_ptr_slot);
        SetStackPointer USER_STACK; Call exec_entry ] ++
      (if guest_returns w then [IdleForever] else []).
Proof.
  unfold run_code. eexists. split; [reflexivity|].
  destruct (guest_returns w); simpl;
    (split; [reflexivity|repeat rewrite <- app_assoc; reflexivity]).
Qed.


(** X7.  [main] returns only to report a failure: every status it returns
    is negative.  (On the path without a failure it ends in [run_code],
    which does not return.) *)
Theorem main_returns_only_failures w fuel s err s' :
  main w fuel s = Ret err s' -> err < 0.
Proof.
  intros H. unfold main in H.
  apply bind_Ret_inv in H. destruct H as ([] & s1 & _ & H).
  apply bind_Ret_inv in H. destruct H as ([] & s2 & _ & H).
  apply bind_Ret_inv in H. destruct H as ([] & s3 & _ & H).
  apply bind_Ret_inv in H. destruct H as (e1 & s4 & U & H).
  destruct (e1 <? 0) eqn:E1.
  { unfold ret in H. injection H as H _. apply Z.ltb_lt in E1. lia. }
  apply bind_Ret_inv in H. destruct H as (e2 & s5 & T & H).
  rewrite run_tests_eval in T. injection T as T _. subst e2.
  change (0 <? 0) with false in H. cbv iota in H.
  apply bind_Ret_inv in H. destruct H as (e3 & s6 & R & H).
  destruct (e3 <? 0) eqn:E3.
  { unfold ret in H. injection H as H _. apply Z.ltb_lt in E3. lia. }
  unfold run_code in H. discriminate.
Qed.

Lemma main_returns_only_failures_witness : -3 < 0.
Proof.
  exact (main_returns_only_failures (bench_world 0 0 (-3)) 10 reset_host (-3)
           (with_events (brought_up (bench_world 0 0 (-3)) bench_clock_done)
              [UartSetup; UartReceiveEnable;
               UartRecvBuffer USER_START USER_MAX_PROG_SIZE])
           eq_refl).
Defined.








(** X12.  The code loader has no timeout: when the driver accepts the
    request and the completion predicate stays false, the loader is still
    polling after any budget, having made the one request followed by
    exactly that many polls and nothing else; it has not written memory. *)
Theorem code_loader_keeps_polling w fuel s :
  0 <= uart_recv_buffer_status w ->
  (forall k, is_recv_complete w k = false) ->
  exists s',
    receive_code w fuel s = OutOfFuel s' /\
    trace s' = trace s ++
      UartRecvBuffer USER_START USER_MAX_PROG_SIZE
      :: repeat (IsRecvComplete false) fuel /\
    mem s' = mem s.
Proof.
  intros Hs Hc. apply Z.ltb_ge in Hs.
  assert (W : forall fuel k t, exists t',
            spin_while (recv_wait_cond w recv_destination USER_MAX_PROG_SIZE)
              fuel k t = OutOfFuel t' /\
            trace t' = trace t ++ repeat (IsRecvComplete false) fuel /\
            mem t' = mem t).
  { clear fuel s. induction fuel as [|fuel IH]; intros k t.
    - exists t. simpl. rewrite app_nil_r. repeat split.
    - simpl. unfold bind. rewrite recv_wait_cond_eval, Hc.
      destruct (IH (S k) (with_events t [IsRecvComplete false]))
        as (t' & E & T & Hm).
      exists t'. split; [exact E|]. split; [|exact Hm].
      rewrite T. simpl. rewrite <- app_assoc. reflexivity. }
  destruct (W fuel 0%nat
              (with_events s [UartRecvBuffer recv_destination USER_MAX_PROG_SIZE]))
    as (s' & E & T & Hm).
  exists s'. split; [|split; [|exact Hm]].
  - unfold receive_code, receive_code_len.
    unfold bind at 1. unfold emit at 1. cbv zeta. rewrite Hs.
    unfold bind. rewrite E. reflexivity.
  - rewrite T. simpl. rewrite <- app_assoc. reflexivity.
Qed.

(** a link on which the transfer never completes *)
Definition silent_world : world :=
  {| rcc_cr_hse_wait := fun _ => 0x00010083;
     rcc_cr_pll_wait := fun _ => 0x01010083;
     rcc_sws_wait := fun _ => 2;
     calib := {| NOREF := 0; SKEW := 1; TENMS := 6000 |};
     uart_setup_status := 0;
     uart_receive_enable_status := 0;
     uart_recv_buffer_status := 0;
     is_recv_complete := fun _ => false;
     rx_byte := fun _ => 0;
     API_host := [];
     guest_returns := false |}.

Lemma code_loader_keeps_polling_witness :
  exists s',
    receive_code silent_world 2 reset_host = OutOfFuel s' /\
    trace s' = trace reset_host ++
      UartRecvBuffer USER_START USER_MAX_PROG_SIZE
      :: repeat (IsRecvComplete false) 2 /\
    mem s' = mem reset_host.
Proof.
  apply (code_loader_keeps_polling silent_world 2 reset_host).
  - simpl. lia.
  - intros k. reflexivity.
Defined.

(** X13.  When [main] returns, it does so in one of three situations only:
    after a negative [uart_setup], after a negative [uart_receive_enable]
    that followed an accepted setup, or after a negative [uart_recv_buffer]
    that followed both; the state is the one left by the failing call, so
    the stack pointer and memory are as at entry and no step of the hand-off
    has been taken. *)
Theorem main_return_states w fuel s err s' :
  main w fuel s = Ret err s' ->
  exists s1 evs,
    board_clocking_init w fuel s = Ret tt s1 /\
    s' = with_events (brought_up w s1) evs /\
    sp s' = sp s /\ mem s' = mem s /\
    ( (err = uart_setup_status w /\ err < 0 /\ evs = [UartSetup]) \/
      (err = uart_receive_enable_status w /\ err < 0 /\
       0 <= uart_setup_status w /\ evs = [UartSetup; UartReceiveEnable]) \/
      (err = uart_recv_buffer_status w /\ err < 0 /\
       0 <= uart_setup_status w /\ 0 <= uart_receive_enable_status w /\
       evs = [UartSetup; UartReceiveEnable;
              UartRecvBuffer USER_START USER_MAX_PROG_SIZE]) ).
Proof.
  intros H.
  assert (C : exists s1, board_clocking_init w fuel s = Ret tt s1).
  { unfold main in H. apply bind_Ret_inv in H.
    destruct H as ([] & s1 & E & _). exists s1. exact E. }
  destruct C as (s1 & Hclk).
  pose proof (clock_init_keeps_mem w fuel s) as Km.
  assert (Ks : keeps sp (board_clocking_init w fuel)).
  { unfold board_clocking_init, hse_wait_cond, pll_wait_cond, sws_wait_cond.
    keeps_steps. }
  specialize (Ks s). rewrite Hclk in Km, Ks. simpl in Km, Ks.
  rewrite (main_after_clock _ _ _ _ Hclk) in H.
  unfold bind at 1 in H. rewrite uart_init_eval in H.
  exists s1.
  destruct (uart_setup_status w <? 0) eqn:E1.
  { rewrite E1 in H. unfold ret in H. injection H as He Hs.
    apply Z.ltb_lt in E1.
    exists [UartSetup]. repeat (split; [first [assumption|symmetry; assumption
      |subst s'; assumption]|]).
    left. repeat split; [symmetry; exact He|lia]. }
  apply Z.ltb_ge in E1.
  destruct (uart_receive_enable_status w <? 0) eqn:E2.
  { rewrite E2 in H. unfold ret in H. injection H as He Hs.
    apply Z.ltb_lt in E2.
    exists [UartSetup; UartReceiveEnable].
    repeat (split; [first [assumption|symmetry; assumption
      |subst s'; assumption]|]).
    right. left. repeat split; [symmetry; exact He|lia|exact E1]. }
  apply Z.ltb_ge in E2.
  change (0 <? 0) with false in H. cbv iota in H.
  unfold bind at 1 in H. rewrite run_tests_eval in H.
  change (0 <? 0) with false in H. cbv iota in H.
  apply bind_Ret_inv in H. destruct H as (e3 & s6 & R & H).
  destruct (e3 <? 0) eqn:E3; [|unfold run_code in H; discriminate].
  unfold ret in H. injection H as He Hs. subst e3 s6.
  apply Z.ltb_lt in E3. unfold receive_code in R.
  destruct (receive_code_len_Ret _ _ _ _ _ _ R) as [(Hst & _)|Hz]; [|lia].
  rewrite (receive_code_len_rejected w _ fuel _ ltac:(lia)) in R.
  injection R as _ Hs. rewrite with_events_events in Hs. simpl app in Hs.
  exists [UartSetup; UartReceiveEnable;
          UartRecvBuffer USER_START USER_MAX_PROG_SIZE].
  split; [exact Hclk|]. split; [symmetry; exact Hs|].
  split; [subst s'; exact Ks|]. split; [subst s'; exact Km|].
  right. right. repeat split; [exact Hst|exact E3|exact E1|exact E2].
Qed.

Lemma main_return_states_witness :
  exists s1 evs,
    board_clocking_init (bench_world 0 (-7) 0) 10 reset_host = Ret tt s1 /\
    with_events (brought_up (bench_world 0 (-7) 0) bench_clock_done)
      [UartSetup; UartReceiveEnable]
      = with_events (brought_up (bench_world 0 (-7) 0) s1) evs /\
    sp (with_events (brought_up (bench_world 0 (-7) 0) bench_clock_done)
          [UartSetup; UartReceiveEnable]) = sp reset_host /\
    mem (with_events (brought_up (bench_world 0 (-7) 0) bench_clock_done)
          [UartSetup; UartReceiveEnable]) = mem reset_host /\
    ( (-7 = uart_setup_status (bench_world 0 (-7) 0) /\ -7 < 0 /\
       evs = [UartSetup]) \/
      (-7 = uart_receive_enable_status (bench_world 0 (-7) 0) /\ -7 < 0 /\
       0 <= uart_setup_status (bench_world 0 (-7) 0) /\
       evs = [UartSetup; UartReceiveEnable]) \/
      (-7 = uart_recv_buffer_status (bench_world 0 (-7) 0) /\ -7 < 0 /\
       0 <= uart_setup_status (bench_world 0 (-7) 0) /\
       0 <= uart_receive_enable_status (bench_world 0 (-7) 0) /\
       evs = [UartSetup; UartReceiveEnable;
              UartRecvBuffer USER_START USER_MAX_PROG_SIZE]) ).
Proof.
  exact (main_return_states (bench_world 0 (-7) 0) 10 reset_host (-7)
           (with_events (brought_up (bench_world 0 (-7) 0) bench_clock_done)
              [UartSetup; UartReceiveEnable])
           eq_refl).
Defined.

(** ** Hand-off *)

Lemma load32_range m a : 0 <= load32 m a < modulus.
Proof.
  unfold load32.
  destruct (load_bytes m a 4) as [|b0 [|b1 [|b2 [|b3 [|]]]]];
    try (unfold modulus; lia); apply wrap32_range.
Qed.

(** X10.  The hand-off writes nothing but the table: every byte of memory
    outside the destination of the copy (the table's length from the address
    read out of the pointer slot, wrapping at 2^32) is left as it was. *)
Theorem handoff_writes_only_the_table w s x :
  (forall i, 0 <= i < Z.of_nat (length (API_host w)) ->
     wrap32 (load32 (mem s) api_ptr_slot + i) <> x) ->
  mem (final_state (@run_code Z w s)) x = mem s x.
Proof.
  intros H. unfold run_code.
  destruct (guest_returns w); simpl;
    apply store_bytes_other; first [apply load32_range|exact H].
Qed.

Lemma handoff_writes_only_the_table_witness :
  mem (final_state (@run_code Z (bench_world 0 0 0)
                      (with_mem reset_host split_image))) 0x20000401
    = mem (with_mem reset_host split_image) 0x20000401.
Proof.
  apply handoff_writes_only_the_table.
  intros i Hi. simpl length in Hi.
  change (load32 (mem (with_mem reset_host split_image)) api_ptr_slot)
    with 0x20001800.
  rewrite wrap32_small by (unfold modulus; lia). lia.
Defined.

(** ** Memory layout *)

(** X11.  Every byte of the maximum-size transfer lands in SRAM at or above
    the reserved offset (no address wraps), the transfer ends exactly at the
    stack top, and both the pointer word that the hand-off reads and the
    entry point lie inside the transferred region. *)
Theorem loadable_region_bounds :
  (forall i, 0 <= i < USER_MAX_PROG_SIZE ->
     wrap32 (recv_destination + i) = USER_START + i /\
     SRAM_VADDR + USER_OFFS <= wrap32 (recv_destination + i)
       < SRAM_VADDR + SRAM_SIZE) /\
  recv_destination + USER_MAX_PROG_SIZE = USER_STACK /\
  (forall j, 0 <= j < sizeof_uint32 ->
     USER_START <= api_ptr_slot + j < USER_START + USER_MAX_PROG_SIZE) /\
  USER_START <= exec_entry < USER_START + USER_MAX_PROG_SIZE.
Proof.
  rewrite recv_destination_value, USER_START_value, USER_MAX_PROG_SIZE_value,
    api_ptr_slot_value, exec_entry_value, USER_STACK_value.
  unfold SRAM_VADDR, USER_OFFS, SRAM_SIZE, sizeof_uint32.
  split; [|split; [reflexivity|split; [intros j Hj; lia|lia]]].
  intros i Hi. rewrite wrap32_small by (unfold modulus; lia). lia.
Qed.



(** ** Code loader: refusal *)

(** X14.  The code loader refuses exactly when the driver does: a negative
    status of [uart_recv_buffer] is returned at once, in the state the call
    left (no completion poll, memory untouched); and whenever the loader
    returns, its status is negative only if the driver's was, in which case
    it is the driver's, and it is 0 otherwise. *)
Theorem code_loader_refuses_iff_driver_does w fuel s :
  (uart_recv_buffer_status w < 0 ->
     receive_code w fuel s =
       Ret (uart_recv_buffer_status w)
           (with_events s [UartRecvBuffer USER_START USER_MAX_PROG_SIZE])) /\
  (forall e s',
     receive_code w fuel s = Ret e s' ->
     (e < 0 <-> uart_recv_buffer_status w < 0) /\
     (e < 0 -> e = uart_recv_buffer_status w) /\
     (0 <= uart_recv_buffer_status w -> e = 0)).
Proof.
  split.
  - intros H. unfold receive_code. apply receive_code_len_rejected. exact H.
  - intros e s' R. unfold receive_code in R.
    destruct (Z.lt_ge_cases (uart_recv_buffer_status w) 0) as [Hneg|Hpos].
    + rewrite (receive_code_len_rejected w _ fuel s Hneg) in R.
      injection R as He _. subst e.
      split; [split; intros; assumption|]. split; [reflexivity|lia].
    + destruct (receive_code_len_Ret _ _ _ _ _ _ R) as [(He & Hlt)|Hz].
      * lia.
      * subst e. split; [split; intros; lia|]. split; [lia|reflexivity].
Qed.
